(* ===== verification/_CoqProject ===== *)
-Q . S2P
Prelude.v
Platform.v
Process.v
Interop.v
SharedTexture.v
FrameLease.v
RenderPath.v
MediaWriter.v
