(* ===== verification/Prelude.v ===== *)
(** * AX-MediaPlayer: the DXGI interop render path and the MediaWriter

    A verification development of the two source files of this repository:
    [src/blocks/AX-MediaPlayer/src/msw/AX-MediaPlayerMSWDXGIRenderPath.cxx]
    (decoded video frames handed from a D3D11 device to GL through the
    WGL_NV_DX_interop bridge) and [src/blocks/AX-MediaPlayer/src/AX-MediaWriter.h]
    (encoding rendered frames with a Media Foundation sink writer).

    ** The program's parts and how they interact

    - [InteropContext] (a process-wide singleton, [kInteropContext], never
      deleted) owns the D3D11 device, the DXGI device manager handed to the
      media engine, and the interop handle opened on the current GL context.
    - [DXGIRenderPath::SharedTexture] is a D3D11 surface plus a GL texture
      registered together with the bridge; [Lock]/[Unlock] fence it for GL.
    - [DXGIRenderPath] (one per playback session) asks the context for a
      texture of the video's size, lets the media engine transfer each frame
      into it ([ProcessFrame]) and lends it to the renderer.
    - [DXGIRenderPathFrameLease] is the renderer's scoped lock: it locks the
      texture when built and unlocks it when destroyed, through a raw
      pointer to the session's texture.
    - [MediaWriter] encodes captured frames; its implementation file is not
      among the sources, only its header.

    ** Files, and how the model corresponds to the code

    - [Prelude] (this file): the fault type (failed [assert], null or
      dangling dereference, division by zero), the state-and-fault monad
      [ST] with its notations in [vp_scope] ([let* x := c in k], [c ;; k]),
      the [preserves] invariant combinators, the tactics [st_simpl],
      [bool_hyps], and 32/64-bit integer conversions ([to_uint32]).
    - [Platform]: the external APIs as an environment, not as code: D3D11
      ([D3D11CreateDevice], [CreateTexture2D]), Media Foundation
      ([MFCreateDXGIDeviceManager], [ResetDevice], [SetUnknown],
      [TransferVideoFrame]), WGL_NV_DX_interop ([wglDXOpenDeviceNV],
      [wglDXRegisterObjectNV], [wglDXLockObjectsNV], ...) and Cinder's GL
      texture creation.  The driver state [platform] holds the objects each
      API handed out and the lock state of each registered object.  Whether
      a fallible call succeeds is the answer of an oracle [env] at a logical
      [clock], so every theorem quantified over [env] covers every pattern of
      transient and permanent failures; besides, calls fail on the arguments
      the APIs refuse (null handles, unregistered objects, a lock of a locked
      object, a surface over 16384 pixels, a destination outside the
      surface).  A transfer into a surface GL holds locked is counted as a
      [hazard].  Also the tactic [run_branches], which runs code with a
      symbolic state and splits it on the oracle's answers.
    - [Process]: the C++ objects as records of their data members
      ([InteropContext], [SharedTexture]) and the process state [world]:
      the platform, the build ([ndebug]: [NDEBUG] defined, asserts compiled
      out), whether the GL loader found the interop entry points, the static
      [kInteropContext], and the heap of [SharedTexture] objects that
      [unique_ptr]s and the lease's raw pointer address ([alloc], [load],
      [store], [free]; a load of a freed address is a use after free).
    - [Interop] (Module [Interop]): [InteropContext_ctor] (lines 135-165),
      [StaticInitialize] (66-72), [Get] (74-78), [InteropContext_dtor]
      (175-197).
    - [SharedTexture] (Module [Tex]): [SharedTexture_ctor] (199-223),
      [Lock] (225-230), [Unlock] (232-242), [SharedTexture_dtor] (244-255,
      with the members' releases), [CreateSharedTexture] (167-173); the
      predicates [tex_sync] (the texture is registered and its lock flag is
      the bridge's lock state) and [surface_ok] (its surface, GL texture and
      registration are those of lines 201-221), with boolean versions for
      the witnesses.
    - [FrameLease] (Module [Lease]): the interface [FrameLeaseInterface]
      ([MediaPlayer::FrameLease], declared in a header that is not among the
      sources) and its instance for [DXGIRenderPathFrameLease] (107-133).
    - [RenderPath] (Module [RP]): [Initialize] (261-274),
      [InitializeRenderTarget] (276-285), [ProcessFrame] (287-308),
      [GetFrameLease] (310-313), the constructor and destructor.
    - [MediaWriter] (Module [MW]): the header's data members as the record
      [MediaWriter]; the constructor, [InitializeSinkWriter], [WriteFrame],
      [Write] and [Finalize] modelled from the spec and the sink-writer
      tutorial the header cites, over an [encoder] with its own oracle, the
      count of live COM objects and the samples written.

    ** What the theorems show (claims C1-C27)

    - InteropContext (C1-C6): the context is valid exactly when its five
      gated steps succeeded; a valid context owns a multithread-protected
      video device bound to the DXGI manager and opened on the bridge; a
      failed one opens no bridge; the constructor calls [wglDXOpenDeviceNV]
      through a null pointer when the extension is missing; the singleton is
      built once and never retried; [Get] before initialisation faults.
    - SharedTexture (C7-C14): [Lock] and [Unlock] keep the texture in step
      with the bridge, a failed unlock leaves it locked; the assertions catch
      a double lock in a debug build, while a release build's double lock
      clears the flag with the bridge still locked; [CreateSharedTexture]
      returns only registered textures of the fixed format and size, and
      leaks nothing when it returns none; destruction unregisters, or, with
      no GL context, leaves the registration behind.
    - FrameLease (C15-C18): a lease without texture is inert; a lease locks
      and unlocks its texture, which ends locked exactly when the lock
      succeeded and the unlock failed; a lease whose lock failed still says
      it is valid; a failed unlock makes the next frame's lease abort.
    - RenderPath (C19-C21): no reallocation for an unchanged size;
      [ProcessFrame] without texture does nothing; with a texture of the
      path's size it succeeds exactly when the engine's transfer does and
      records the timestamp either way.
    - MediaWriter (C22-C27): writes before readiness or after [Finalize] fail
      without effect; COM objects are released on every path; N writes are
      stamped 0, d, ..., (N-1)d; the duration [10 000 000 / fps] is rounded
      down (timestamps drift); [fps = 0] divides by zero.
    Theorems with hypotheses have witnesses that run the code on a process
    built by the code itself ([demo_world]: a valid context and one
    1280x720 texture), evaluated by [vm_compute].

    ** Bounds and fuel

    No definition needs fuel: every operation is straight-line code or a
    structural recursion on a list (the Media Foundation call chains, the
    capture loop [write_frames]).  Machine integers are kept at their width
    where the code converts them: [desc.Width = size.x] is [to_uint32], so a
    negative size becomes a huge width that [CreateTexture2D] refuses.

    ** Not modelled, and why

    The decode engine, demuxer and render loop of [MediaPlayer] (out of scope
    per the spec; only the owner's [_hasNewFrame] flag is kept), the pixel
    contents of transferred frames, the debug layer's live-object report
    beyond the list of live surfaces, reference counts of [gl::TextureRef]
    copies handed to the renderer, and the concurrency of the decode
    engine's threads (the model is the consumer thread's sequence of calls;
    the device's multithread protection is recorded as a flag).

    ** Plan for the next sittings

    1. A session step relation (InitializeRenderTarget / ProcessFrame /
       GetFrameLease / lease destruction) with its reachable states: the
       invariant that the session's texture is registered, in step with the
       bridge and of the session's size, preserved by every step; the
       resize theorem (a size change frees the old texture and installs a
       texture of the new size), with a freshness invariant on the
       allocator; hazard-freedom of transfers when leases are scoped.
    2. [Initialize] against a failed context, for the spec's two-session
       scenario, and the interop capability interface of the design notes
       as a [Module Type] the render path is proved against.
    3. The MediaWriter accumulator's int64 bound, and an abstract
       Uninitialized/Ready/Closed state machine refined by the writer. *)

From stdpp Require Export base gmap strings.
From Stdlib Require Export ZArith Lia.

(** ** Faults

    What C++ leaves undefined or aborts on.  A [fault] is the end of the
    program: a failed [assert] in a debug build, a null or dangling
    pointer dereference. *)
Inductive fault :=
| AssertionFailed (site : string)
| NullDereference (site : string)
| UseAfterFree (site : string)
| DivisionByZero (site : string).

(** The result of running code: a value, or a fault. *)
Inductive res (A : Type) :=
| Ok (a : A)
| Err (f : fault).
Arguments Ok {A} a.
Arguments Err {A} f.

(** ** The state monad with faults

    [ST S A] is a computation on a state [S] (the whole process: the
    driver state and the C++ heap) returning an [A] or faulting.  Its
    notations live in [vp_scope]: [let* x := c in k] runs [c] and binds its
    result, [c ;; k] runs [c] for its effect. *)
Definition ST (S A : Type) : Type := S → res (A * S).

Definition ret {S A} (a : A) : ST S A := λ s, Ok (a, s).
Definition st_bind {S A B} (m : ST S A) (k : A → ST S B) : ST S B :=
  λ s, match m s with Ok (a, s') => k a s' | Err f => Err f end.
Definition throw {S A} (f : fault) : ST S A := λ _, Err f.

Declare Scope vp_scope.
Delimit Scope vp_scope with vp.
Notation "'let*' x ':=' m 'in' k" := (st_bind m (λ x, k))
  (at level 10, x name, m at level 100, k at level 200) : vp_scope.
Notation "'let*' ' p ':=' m 'in' k" := (st_bind m (λ p, k))
  (at level 10, p pattern, m at level 100, k at level 200) : vp_scope.
Notation "x ;; z" := (st_bind x (λ _, z))
  (at level 100, z at level 200, right associativity) : vp_scope.
Open Scope vp_scope.

Definition get {S} : ST S S := λ s, Ok (s, s).
Definition put {S} (s : S) : ST S unit := λ _, Ok (tt, s).
Definition modify {S} (f : S → S) : ST S unit := λ s, Ok (tt, f s).
Definition gets {S A} (f : S → A) : ST S A := λ s, Ok (f s, s).

(** Run a computation and observe only its final state / its value. *)
Definition exec {S A} (m : ST S A) (s : S) : option S :=
  match m s with Ok (_, s') => Some s' | Err _ => None end.

(** ** Invariants of computations

    [preserves I m]: every successful run of [m] from an [I]-state ends in an
    [I]-state.  The bind and return rules below let an invariant proof of a
    handler follow the handler's own structure. *)
Definition preserves {S A} (I : S → Prop) (m : ST S A) : Prop :=
  ∀ s a s', I s → m s = Ok (a, s') → I s'.

Section monad_laws.
Context {S : Type}.

Lemma bind_Ok_inv {A B} (m : ST S A) (k : A → ST S B) s b s' :
  (st_bind m k) s = Ok (b, s') →
  ∃ a s1, m s = Ok (a, s1) ∧ k a s1 = Ok (b, s').
Proof.
  unfold st_bind. destruct (m s) as [[a s1]|f]; [|discriminate].
  eauto.
Qed.

Lemma bind_Ok {A B} (m : ST S A) (k : A → ST S B) s a s1 :
  m s = Ok (a, s1) → (st_bind m k) s = k a s1.
Proof. unfold st_bind. by intros ->. Qed.

Lemma bind_Err {A B} (m : ST S A) (k : A → ST S B) s f :
  m s = Err f → (st_bind m k) s = Err f.
Proof. unfold st_bind. by intros ->. Qed.

Lemma preserves_ret {A} (I : S → Prop) (a : A) : preserves I (ret a).
Proof. intros s b s' HI H. unfold ret in H. congruence. Qed.

Lemma preserves_bind {A B} (I : S → Prop) (m : ST S A) (k : A → ST S B) :
  preserves I m → (∀ a, preserves I (k a)) → preserves I (st_bind m k).
Proof.
  intros Hm Hk s b s' HI H.
  destruct (bind_Ok_inv _ _ _ _ _ H) as (a & s1 & H1 & H2).
  eapply Hk; [eapply Hm|]; eauto.
Qed.

Lemma preserves_throw {A} (I : S → Prop) (f : fault) :
  preserves I (throw f : ST S A).
Proof. intros s b s' _ H. discriminate. Qed.

Lemma preserves_get (I : S → Prop) : preserves I get.
Proof. intros s b s' HI H. unfold get in H. congruence. Qed.

Lemma preserves_gets {A} (I : S → Prop) (f : S → A) : preserves I (gets f).
Proof. intros s b s' HI H. unfold gets in H. congruence. Qed.

Lemma preserves_modify (I : S → Prop) (f : S → S) :
  (∀ s, I s → I (f s)) → preserves I (modify f).
Proof. intros Hf s b s' HI H. unfold modify in H. injection H as <- <-. auto. Qed.
End monad_laws.

(** ** A weakest precondition for [ST]

    [wp E m Q s]: the run of [m] from [s] either succeeds with a value and
    state satisfying [Q], or faults with a fault satisfying [E].  With
    [E := λ _, False] it is total correctness (the run does not fault), with
    [E := λ _, True] partial correctness; a fault's own specification is
    an [E] that names it.  A proof follows the code: [wp_bind] goes into
    the first statement of a sequence, the other rules end a statement, and
    the specifications of called operations are used through [wp_mono]. *)
Definition wp {S A} (E : fault → Prop) (m : ST S A) (Q : A → S → Prop) (s : S) : Prop :=
  match m s with Ok (a, s') => Q a s' | Err f => E f end.
Arguments wp : simpl never.

Section wp_rules.
Context {S : Type} (E : fault → Prop).

Lemma wp_ret {A} (Q : A → S → Prop) a s : Q a s → wp E (ret a) Q s.
Proof. done. Qed.

Lemma wp_bind {A B} (m : ST S A) (k : A → ST S B) Q s :
  wp E m (λ a s1, wp E (k a) Q s1) s → wp E (st_bind m k) Q s.
Proof. unfold wp, st_bind. cbv beta. by destruct (m s) as [[a s1]|f]. Qed.

Lemma wp_throw {A} (Q : A → S → Prop) f s : E f → wp E (throw f) Q s.
Proof. done. Qed.

Lemma wp_get (Q : S → S → Prop) s : Q s s → wp E get Q s.
Proof. done. Qed.

Lemma wp_put (Q : unit → S → Prop) s s' : Q tt s' → wp E (put s') Q s.
Proof. done. Qed.

Lemma wp_modify (Q : unit → S → Prop) f s : Q tt (f s) → wp E (modify f) Q s.
Proof. done. Qed.

Lemma wp_gets {A} (Q : A → S → Prop) (f : S → A) s : Q (f s) s → wp E (gets f) Q s.
Proof. done. Qed.

Lemma wp_mono {A} (E' : fault → Prop) (m : ST S A) (Q Q' : A → S → Prop) s :
  wp E m Q s → (∀ f, E f → E' f) → (∀ a s', Q a s' → Q' a s') → wp E' m Q' s.
Proof. unfold wp. destruct (m s) as [[a s']|f]; auto. Qed.

(** Reading a [wp] back as a run. *)
Lemma wp_Ok {A} (m : ST S A) Q s a s' : wp E m Q s → m s = Ok (a, s') → Q a s'.
Proof. unfold wp. intros H Hm. by rewrite Hm in H. Qed.

Lemma wp_Err {A} (m : ST S A) (Q : A → S → Prop) s f : wp E m Q s → m s = Err f → E f.
Proof. unfold wp. intros H Hm. by rewrite Hm in H. Qed.

End wp_rules.

(** Total correctness: the run succeeds, with a result satisfying [Q]. *)
Lemma wp_total {S A} (m : ST S A) Q s :
  wp (λ _, False) m Q s → ∃ a s', m s = Ok (a, s') ∧ Q a s'.
Proof. unfold wp. destruct (m s) as [[a s']|f]; [eauto | done]. Qed.

(** An invariant is a partial-correctness [wp]. *)
Lemma preserves_wp {S A} (I : S → Prop) (m : ST S A) :
  (∀ s, I s → wp (λ _, True) m (λ _, I) s) → preserves I m.
Proof. intros H s a s' HI Hm. exact (wp_Ok _ _ _ _ _ _ (H s HI) Hm). Qed.

Create HintDb vp discriminated.
#[export] Hint Resolve preserves_ret preserves_throw preserves_get preserves_gets : vp.
#[export] Hint Resolve preserves_bind : vp.

(** [st_simpl] unfolds the monad so that a concrete run reduces; the
    remaining [match]es on oracle answers are split with [case_match]. *)
Ltac st_simpl :=
  unfold st_bind, ret, throw, get, put, modify, gets, exec in *;
  simpl in *.

(** Split every [match]/[if] in the goal and the hypotheses, and clean up
    the equalities between results. *)
Ltac st_crush :=
  st_simpl; repeat (case_match; simplify_eq/=); try done.

(** Symbolic execution of a [wp] goal: one statement of the program at a
    time, splitting a branch on its condition (with the condition's
    equation in the context) and stopping at a call of a named operation,
    whose specification is then applied. *)
Ltac wp_split_true :=
  repeat match goal with
  | H : _ && _ = true |- _ => apply andb_prop in H as [? ?]
  | H : negb _ = true |- _ => apply negb_true_iff in H
  | H : bool_decide _ = true |- _ => apply bool_decide_eq_true in H
  end.

Ltac wp_step :=
  lazymatch goal with
  | |- wp _ (st_bind _ _) _ _ => apply wp_bind
  | |- wp _ (ret _) _ _ => apply wp_ret
  | |- wp _ (throw _) _ _ => apply wp_throw
  | |- wp _ get _ _ => apply wp_get
  | |- wp _ (put _) _ _ => apply wp_put
  | |- wp _ (modify _) _ _ => apply wp_modify
  | |- wp _ (gets _) _ _ => apply wp_gets
  | |- wp _ (if ?b then _ else _) _ _ =>
      first [ match goal with H : b = _ |- _ => rewrite H end
            | destruct b eqn:?; wp_split_true ]
  | |- wp _ (match ?x with _ => _ end) _ _ =>
      first [ match goal with H : x = _ |- _ => rewrite H end | destruct x eqn:? ]
  end.

(** Identify the values two equations give to the same option, and drop
    a branch where they disagree. *)
Ltac merge_some :=
  repeat match goal with
  | H1 : ?x = Some ?a, H2 : ?x = Some ?b |- _ =>
      tryif constr_eq a b then fail else (rewrite H1 in H2; injection H2 as H2; subst)
  | H1 : ?x = None, H2 : ?x = Some _ |- _ => rewrite H1 in H2; discriminate
  | H1 : ?x = true, H2 : ?x = false |- _ => rewrite H1 in H2; discriminate
  end.

(** Break boolean conjunctions and disjunctions in the hypotheses. *)
Ltac bool_hyps :=
  repeat match goal with
  | H : _ && _ = true |- _ => apply andb_prop in H as [? ?]
  | H : _ || _ = false |- _ => apply orb_false_elim in H as [? ?]
  | H : _ || _ = true |- _ => apply orb_true_iff in H as [? | ?]
  | H : _ && _ = false |- _ => apply andb_false_iff in H as [? | ?]
  | H : negb _ = true |- _ => apply negb_true_iff in H
  | H : negb _ = false |- _ => apply negb_false_iff in H
  | H : bool_decide _ = true |- _ => apply bool_decide_eq_true in H
  | H : bool_decide _ = false |- _ => apply bool_decide_eq_false in H
  end.

(** ** Machine integers

    C++ [UINT]/[DWORD] are 32 bits, [LONGLONG] 64 bits, [long] 32 bits on
    Windows (LLP64).  A conversion to an unsigned type is reduction modulo
    [2^w]; a signed type has a range. *)
Definition to_uint32 (z : Z) : Z := z mod 2 ^ 32.
Definition int32_min : Z := - 2 ^ 31.
Definition int32_max : Z := 2 ^ 31 - 1.
Definition int64_min : Z := - 2 ^ 63.
Definition int64_max : Z := 2 ^ 63 - 1.
Definition in_int32 (z : Z) : bool := (int32_min <=? z)%Z && (z <=? int32_max)%Z.
Definition in_int64 (z : Z) : bool := (int64_min <=? z)%Z && (z <=? int64_max)%Z.

Lemma to_uint32_small z : (0 <= z < 2 ^ 32)%Z → to_uint32 z = z.
Proof. intros H. unfold to_uint32. by apply Z.mod_small. Qed.

Lemma to_uint32_neg z : (- 2 ^ 32 <= z < 0)%Z → to_uint32 z = (z + 2 ^ 32)%Z.
Proof.
  intros H. unfold to_uint32.
  rewrite <- (Z.mod_small (z + 2 ^ 32) (2 ^ 32)) by lia.
  rewrite <- Zplus_mod_idemp_r, Z_mod_same_full, Z.add_0_r. reflexivity.
Qed.

Lemma to_uint32_range z : (0 <= to_uint32 z < 2 ^ 32)%Z.
Proof. unfold to_uint32. apply Z.mod_pos_bound. lia. Qed.
