(* ===== verification/Platform.v ===== *)
(** * The platform: D3D11, Media Foundation and WGL_NV_DX_interop

    The code under verification drives three external APIs.  This file is
    their model: a driver state [platform] that records the objects each API
    has handed out, and one operation per API entry point that the sources
    call.  Whether a call that may fail does fail is decided by an oracle
    [env], queried with a logical clock, so that a theorem quantified over
    [env] covers every pattern of transient and permanent failures.  Besides
    the oracle, each call fails on the arguments the API documents as
    invalid (a null handle, an unregistered object, a lock of a locked
    object, a surface larger than the device limit). *)

From S2P Require Import Prelude.
Open Scope vp_scope.

(** ** External calls that can fail *)
Inductive ext_call :=
| c_MFCreateDXGIDeviceManager
| c_D3D11CreateDevice
| c_QueryInterface_ID3D10Multithread
| c_ResetDevice
| c_wglDXOpenDeviceNV
| c_CreateTexture2D
| c_wglDXRegisterObjectNV
| c_wglDXLockObjectsNV
| c_wglDXUnlockObjectsNV
| c_SetUnknown
| c_TransferVideoFrame.

#[export] Instance ext_call_eq_dec : EqDecision ext_call.
Proof. solve_decision. Defined.

(** ** Constants of the Windows and GL headers used by the sources *)
Definition D3D11_CREATE_DEVICE_DEBUG : Z := 2.
Definition D3D11_CREATE_DEVICE_BGRA_SUPPORT : Z := 32.
Definition D3D11_CREATE_DEVICE_VIDEO_SUPPORT : Z := 2048.
Definition DXGI_FORMAT_B8G8R8A8_UNORM : Z := 87.
Definition D3D11_BIND_RENDER_TARGET : Z := 32.
Definition D3D11_USAGE_DEFAULT : Z := 0.
Definition D3D11_REQ_TEXTURE2D_U_OR_V_DIMENSION : Z := 16384.
Definition GL_TEXTURE_2D : Z := 3553.
Definition GL_RGBA : Z := 6408.
Definition WGL_ACCESS_READ_ONLY_NV : Z := 0.

(** [D3D11_TEXTURE2D_DESC]; a zero-initialised descriptor is [desc0]. *)
Record D3D11_TEXTURE2D_DESC := {
  Width : Z; Height : Z; MipLevels : Z; ArraySize : Z; Format : Z;
  SampleDesc_Count : Z; SampleDesc_Quality : Z; Usage : Z; BindFlags : Z;
  CPUAccessFlags : Z; MiscFlags : Z
}.

(** What [CreateTexture2D] accepts: sizes within the device limit, one
    sample at least, one mip level and one slice at least. *)
Definition desc_supported (d : D3D11_TEXTURE2D_DESC) : bool :=
  (1 <=? Width d)%Z && (Width d <=? D3D11_REQ_TEXTURE2D_U_OR_V_DIMENSION)%Z &&
  (1 <=? Height d)%Z && (Height d <=? D3D11_REQ_TEXTURE2D_U_OR_V_DIMENSION)%Z &&
  (1 <=? MipLevels d)%Z && (1 <=? ArraySize d)%Z && (1 <=? SampleDesc_Count d)%Z.

Record device := { dev_flags : Z; dev_multithread_protected : bool }.

Record gl_texture := {
  gl_width : Z; gl_height : Z; gl_internal_format : Z; gl_load_top_down : bool
}.

(** An object registered with [wglDXRegisterObjectNV]. *)
Record share_object := {
  so_interop : positive;         (** the interop device handle it was registered with *)
  so_dx : positive;              (** the D3D resource *)
  so_gl : positive;              (** the GL texture name *)
  so_type : Z;
  so_access : Z;
  so_locked : bool               (** held by GL through [wglDXLockObjectsNV] *)
}.

#[export] Instance D3D11_TEXTURE2D_DESC_eq_dec : EqDecision D3D11_TEXTURE2D_DESC.
Proof. solve_decision. Defined.
#[export] Instance device_eq_dec : EqDecision device.
Proof. solve_decision. Defined.
#[export] Instance gl_texture_eq_dec : EqDecision gl_texture.
Proof. solve_decision. Defined.
#[export] Instance share_object_eq_dec : EqDecision share_object.
Proof. solve_decision. Defined.

Record platform := {
  env : nat → ext_call → bool;   (** does the n-th external call succeed *)
  clock : nat;
  gl_current : bool;             (** [wglGetCurrentContext () != nullptr] *)
  next_id : positive;            (** allocator of handles and object names *)
  dxgi_managers : gmap positive (option positive);  (** manager ↦ device reset into it *)
  devices : gmap positive device;
  dx_textures : gmap positive D3D11_TEXTURE2D_DESC;
  gl_textures : gmap positive gl_texture;
  interop_devices : gmap positive positive;  (** interop handle ↦ D3D device *)
  share_objects : gmap positive share_object;
  hazards : nat                  (** frames transferred into a surface GL held locked *)
}.

(** Field updates. *)
Definition with_clock (p : platform) (c : nat) : platform :=
  {| env := env p; clock := c; gl_current := gl_current p; next_id := next_id p;
     dxgi_managers := dxgi_managers p; devices := devices p; dx_textures := dx_textures p;
     gl_textures := gl_textures p; interop_devices := interop_devices p;
     share_objects := share_objects p; hazards := hazards p |}.
Definition with_env (p : platform) (e : nat → ext_call → bool) : platform :=
  {| env := e; clock := clock p; gl_current := gl_current p; next_id := next_id p;
     dxgi_managers := dxgi_managers p; devices := devices p; dx_textures := dx_textures p;
     gl_textures := gl_textures p; interop_devices := interop_devices p;
     share_objects := share_objects p; hazards := hazards p |}.
Definition with_gl_current (p : platform) (b : bool) : platform :=
  {| env := env p; clock := clock p; gl_current := b; next_id := next_id p;
     dxgi_managers := dxgi_managers p; devices := devices p; dx_textures := dx_textures p;
     gl_textures := gl_textures p; interop_devices := interop_devices p;
     share_objects := share_objects p; hazards := hazards p |}.
Definition with_next_id (p : platform) (n : positive) : platform :=
  {| env := env p; clock := clock p; gl_current := gl_current p; next_id := n;
     dxgi_managers := dxgi_managers p; devices := devices p; dx_textures := dx_textures p;
     gl_textures := gl_textures p; interop_devices := interop_devices p;
     share_objects := share_objects p; hazards := hazards p |}.
Definition with_managers (p : platform) m : platform :=
  {| env := env p; clock := clock p; gl_current := gl_current p; next_id := next_id p;
     dxgi_managers := m; devices := devices p; dx_textures := dx_textures p;
     gl_textures := gl_textures p; interop_devices := interop_devices p;
     share_objects := share_objects p; hazards := hazards p |}.
Definition with_devices (p : platform) m : platform :=
  {| env := env p; clock := clock p; gl_current := gl_current p; next_id := next_id p;
     dxgi_managers := dxgi_managers p; devices := m; dx_textures := dx_textures p;
     gl_textures := gl_textures p; interop_devices := interop_devices p;
     share_objects := share_objects p; hazards := hazards p |}.
Definition with_dx_textures (p : platform) m : platform :=
  {| env := env p; clock := clock p; gl_current := gl_current p; next_id := next_id p;
     dxgi_managers := dxgi_managers p; devices := devices p; dx_textures := m;
     gl_textures := gl_textures p; interop_devices := interop_devices p;
     share_objects := share_objects p; hazards := hazards p |}.
Definition with_gl_textures (p : platform) m : platform :=
  {| env := env p; clock := clock p; gl_current := gl_current p; next_id := next_id p;
     dxgi_managers := dxgi_managers p; devices := devices p; dx_textures := dx_textures p;
     gl_textures := m; interop_devices := interop_devices p;
     share_objects := share_objects p; hazards := hazards p |}.
Definition with_interop_devices (p : platform) m : platform :=
  {| env := env p; clock := clock p; gl_current := gl_current p; next_id := next_id p;
     dxgi_managers := dxgi_managers p; devices := devices p; dx_textures := dx_textures p;
     gl_textures := gl_textures p; interop_devices := m;
     share_objects := share_objects p; hazards := hazards p |}.
Definition with_share_objects (p : platform) m : platform :=
  {| env := env p; clock := clock p; gl_current := gl_current p; next_id := next_id p;
     dxgi_managers := dxgi_managers p; devices := devices p; dx_textures := dx_textures p;
     gl_textures := gl_textures p; interop_devices := interop_devices p;
     share_objects := m; hazards := hazards p |}.
Definition with_hazards (p : platform) n : platform :=
  {| env := env p; clock := clock p; gl_current := gl_current p; next_id := next_id p;
     dxgi_managers := dxgi_managers p; devices := devices p; dx_textures := dx_textures p;
     gl_textures := gl_textures p; interop_devices := interop_devices p;
     share_objects := share_objects p; hazards := n |}.

(** ** Primitives: asking the oracle, allocating a name *)
Definition call (c : ext_call) : ST platform bool :=
  λ p, Ok (env p (clock p) c, with_clock p (S (clock p))).

Definition fresh : ST platform positive :=
  λ p, Ok (next_id p, with_next_id p (Pos.succ (next_id p))).

Definition is_open (p : platform) (h : option positive) : bool :=
  match h with Some h => bool_decide (is_Some (interop_devices p !! h)) | None => false end.

Definition has_key {V} (m : gmap positive V) (k : positive) : bool :=
  bool_decide (is_Some (m !! k)).

Lemma has_key_insert_eq {V} (m : gmap positive V) k v : has_key (<[k := v]> m) k = true.
Proof. unfold has_key. rewrite lookup_insert_eq. by apply bool_decide_eq_true. Qed.

Lemma has_key_insert_ne {V} (m : gmap positive V) k k' v :
  k ≠ k' → has_key (<[k := v]> m) k' = has_key m k'.
Proof. intros Hne. unfold has_key. by rewrite lookup_insert_ne. Qed.

Lemma has_key_alter {V} (f : V → V) (m : gmap positive V) k k' :
  has_key (alter f k m) k' = has_key m k'.
Proof.
  unfold has_key. rewrite lookup_alter.
  case_decide; [|done]. subst. destruct (m !! k'); done.
Qed.

Lemma dom_delete_insert_subseteq {V} (m : gmap positive V) k v :
  dom (delete k (<[k := v]> m)) ⊆ dom m.
Proof. rewrite delete_insert_eq, dom_delete_L. set_solver. Qed.

Lemma gmap_lookup_insert_eq {V} (m : gmap positive V) k v : <[k := v]> m !! k = Some v.
Proof. apply lookup_insert_eq. Qed.

Lemma gmap_lookup_alter_eq {V} (f : V → V) (m : gmap positive V) k :
  alter f k m !! k = f <$> m !! k.
Proof. apply lookup_alter_eq. Qed.

Lemma gmap_lookup_delete_eq {V} (m : gmap positive V) k : delete k m !! k = None.
Proof. apply lookup_delete_eq. Qed.

Create Rewrite HintDb vp_map.
#[export] Hint Rewrite @has_key_insert_eq @has_key_alter : vp_map.
#[export] Hint Rewrite @gmap_lookup_insert_eq @gmap_lookup_alter_eq @gmap_lookup_delete_eq Z.eqb_refl Pos.eqb_refl andb_true_r andb_true_l : vp_map.

Lemma has_key_Some {V} (m : gmap positive V) k v : m !! k = Some v → has_key m k = true.
Proof. intros H. unfold has_key. rewrite H. by apply bool_decide_eq_true. Qed.

Lemma has_key_None {V} (m : gmap positive V) k : m !! k = None → has_key m k = false.
Proof. intros H. unfold has_key. rewrite H. by apply bool_decide_eq_false, is_Some_None. Qed.

(** The [wp] of the two primitives. *)
Lemma wp_call E (Q : bool → platform → Prop) c p :
  Q (env p (clock p) c) (with_clock p (S (clock p))) → wp E (call c) Q p.
Proof. done. Qed.

Lemma wp_fresh E (Q : positive → platform → Prop) p :
  Q (next_id p) (with_next_id p (Pos.succ (next_id p))) → wp E fresh Q p.
Proof. done. Qed.

(** ** The allocator

    Every name the platform hands out comes from [next_id], which only
    grows: a map all of whose keys are [below] it cannot contain a name
    handed out later, and a run that only touched fresh names
    [agree_below] the old bound with the map it started from. *)
Definition below {V} (m : gmap positive V) (n : positive) : Prop :=
  ∀ k, is_Some (m !! k) → (k < n)%positive.

Definition agree_below {V} (m m' : gmap positive V) (n : positive) : Prop :=
  ∀ k, (k < n)%positive → m' !! k = m !! k.

Lemma below_insert {V} (m : gmap positive V) n k v :
  (k < n)%positive → below m n → below (<[k := v]> m) n.
Proof.
  intros Hk Hm k' [x Hx]. destruct (decide (k = k')) as [<-|?]; [done|].
  rewrite lookup_insert_ne in Hx by done. eauto.
Qed.

Lemma below_insert_lookup {V} (m : gmap positive V) n k v v' :
  m !! k = Some v' → below m n → below (<[k := v]> m) n.
Proof. intros Hk Hm. apply below_insert; [|done]. apply Hm. by eexists. Qed.

Lemma below_delete {V} (m : gmap positive V) n k : below m n → below (delete k m) n.
Proof. intros Hm k' [x Hx]. apply lookup_delete_Some in Hx as [? ?]. eauto. Qed.

Lemma below_alter {V} (f : V → V) (m : gmap positive V) n k : below m n → below (alter f k m) n.
Proof. intros Hm k' Hx. apply lookup_alter_is_Some in Hx. eauto. Qed.

Lemma below_mono {V} (m : gmap positive V) n n' : (n <= n')%positive → below m n → below m n'.
Proof. intros Hn Hm k Hk. specialize (Hm k Hk). lia. Qed.

Lemma below_lookup {V} (m : gmap positive V) n k v : below m n → m !! k = Some v → (k < n)%positive.
Proof. intros Hm Hk. apply Hm. by eexists. Qed.

Lemma below_fresh_None {V} (m : gmap positive V) n k : below m n → (n <= k)%positive → m !! k = None.
Proof. intros Hm Hk. destruct (m !! k) eqn:E; [|done]. pose proof (below_lookup _ _ _ _ Hm E). lia. Qed.

(** [solve_below] and [solve_agree] close the allocator goals a run leaves:
    the run inserted at names between the old and the new [next_id] and
    deleted some names. *)
Ltac solve_below :=
  repeat first [ apply below_delete | apply below_alter | apply below_insert; [lia|]
               | eapply below_insert_lookup; [eassumption|] ];
  (eapply below_mono; [|eassumption]; lia).

Ltac solve_agree :=
  let k := fresh "k" in let Hk := fresh "Hk" in
  intros k Hk;
  repeat first [ rewrite lookup_insert_ne by lia | rewrite lookup_delete_ne by lia
               | rewrite lookup_alter_ne by lia ];
  reflexivity.

(** A goal about one key of a map the run updated: identify the key with
    the updated one or tell them apart, then look it up. *)
Ltac solve_key :=
  intros; simplify_eq/=; merge_some;
  unfold has_key in *; bool_hyps;
  repeat first [ rewrite lookup_delete_ne by congruence | rewrite lookup_insert_ne by congruence
               | rewrite lookup_alter_ne by congruence ];
  first [ done | apply lookup_delete_eq | apply eq_None_not_Some; done | congruence ].

(** ** Media Foundation *)

(** [MFCreateDXGIDeviceManager (&resetToken, &manager)]: the reset token is
    what [ResetDevice] must be given back. *)
Definition MFCreateDXGIDeviceManager : ST platform (option (Z * positive)) :=
  let* ok := call c_MFCreateDXGIDeviceManager in
  if ok then
    let* m := fresh in
    modify (λ p, with_managers p (<[m := None]> (dxgi_managers p)));;
    ret (Some (Zpos m, m))
  else ret None.

(** The last [ComPtr<IMFDXGIDeviceManager>] reference is dropped. *)
Definition ReleaseDXGIDeviceManager (m : positive) : ST platform unit :=
  modify (λ p, with_managers p (delete m (dxgi_managers p))).

(** [IMFDXGIDeviceManager::ResetDevice (device, resetToken)]. *)
Definition ResetDevice (mgr dev : positive) (token : Z) : ST platform bool :=
  let* ok := call c_ResetDevice in
  let* p := get in
  if ok && has_key (dxgi_managers p) mgr && has_key (devices p) dev
        && Z.eqb token (Zpos mgr) then
    modify (λ p, with_managers p (<[mgr := Some dev]> (dxgi_managers p)));;
    ret true
  else ret false.

(** The attribute store of the media engine; only the key the render path
    sets is modelled. *)
Record IMFAttributes := { MF_MEDIA_ENGINE_DXGI_MANAGER : option positive }.

(** [IMFAttributes::SetUnknown (MF_MEDIA_ENGINE_DXGI_MANAGER, manager)]. *)
Definition SetUnknown (a : IMFAttributes) (mgr : option positive)
    : ST platform (bool * IMFAttributes) :=
  let* ok := call c_SetUnknown in
  if ok then ret (true, {| MF_MEDIA_ENGINE_DXGI_MANAGER := mgr |})
  else ret (false, a).

(** ** D3D11 *)

(** [D3D11CreateDevice (nullptr, D3D_DRIVER_TYPE_HARDWARE, ..., flags, ...)]. *)
Definition D3D11CreateDevice (flags : Z) : ST platform (option positive) :=
  let* ok := call c_D3D11CreateDevice in
  if ok then
    let* d := fresh in
    modify (λ p, with_devices p
      (<[d := {| dev_flags := flags; dev_multithread_protected := false |}]> (devices p)));;
    ret (Some d)
  else ret None.

(** [device->QueryInterface (ID3D10Multithread)]. *)
Definition QueryInterface_ID3D10Multithread (dev : positive) : ST platform bool :=
  let* ok := call c_QueryInterface_ID3D10Multithread in
  let* p := get in
  ret (ok && has_key (devices p) dev).

(** [ID3D10Multithread::SetMultithreadProtected (b)]; its result (the
    previous setting) is ignored by the caller. *)
Definition SetMultithreadProtected (dev : positive) (b : bool) : ST platform unit :=
  modify (λ p, with_devices p
    (alter (λ d, {| dev_flags := dev_flags d; dev_multithread_protected := b |}) dev
       (devices p))).

(** The last [ComPtr<ID3D11Device>] reference is dropped. *)
Definition ReleaseDevice (d : positive) : ST platform unit :=
  modify (λ p, with_devices p (delete d (devices p))).

(** [device->CreateTexture2D (&desc, nullptr, &texture)]. *)
Definition CreateTexture2D (dev : positive) (desc : D3D11_TEXTURE2D_DESC)
    : ST platform (option positive) :=
  let* ok := call c_CreateTexture2D in
  let* p := get in
  if ok && has_key (devices p) dev && desc_supported desc then
    let* t := fresh in
    modify (λ p, with_dx_textures p (<[t := desc]> (dx_textures p)));;
    ret (Some t)
  else ret None.

(** The last [ComPtr<ID3D11Texture2D>] reference is dropped. *)
Definition ReleaseTexture2D (t : positive) : ST platform unit :=
  modify (λ p, with_dx_textures p (delete t (dx_textures p))).

(** ** GL (through Cinder) *)

(** [gl::Texture::Format] as the sources set it. *)
Record gl_texture_format := { fmt_internalFormat : Z; fmt_loadTopDown : bool }.

(** [gl::Texture::create (w, h, fmt)]: GL allocates a name; no failure. *)
Definition gl_Texture_create (w h : Z) (fmt : gl_texture_format) : ST platform positive :=
  let* n := fresh in
  modify (λ p, with_gl_textures p
    (<[n := {| gl_width := w; gl_height := h; gl_internal_format := fmt_internalFormat fmt;
               gl_load_top_down := fmt_loadTopDown fmt |}]> (gl_textures p)));;
  ret n.

(** The last [gl::TextureRef] is dropped: [glDeleteTextures]. *)
Definition glDeleteTexture (n : positive) : ST platform unit :=
  modify (λ p, with_gl_textures p (delete n (gl_textures p))).

(** ** WGL_NV_DX_interop *)

(** [wglDXOpenDeviceNV (device)]: needs a current GL context. *)
Definition wglDXOpenDeviceNV (dev : positive) : ST platform (option positive) :=
  let* ok := call c_wglDXOpenDeviceNV in
  let* p := get in
  if ok && gl_current p && has_key (devices p) dev then
    let* h := fresh in
    modify (λ p, with_interop_devices p (<[h := dev]> (interop_devices p)));;
    ret (Some h)
  else ret None.

(** [wglDXCloseDeviceNV (handle)]. *)
Definition wglDXCloseDeviceNV (h : positive) : ST platform bool :=
  let* p := get in
  if has_key (interop_devices p) h then
    modify (λ p, with_interop_devices p (delete h (interop_devices p)));;
    ret true
  else ret false.

(** [wglDXRegisterObjectNV (hDevice, dxObject, name, type, access)]: a null
    device handle or a null resource is refused. *)
Definition wglDXRegisterObjectNV (h dx : option positive) (name : positive) (type access : Z)
    : ST platform (option positive) :=
  let* ok := call c_wglDXRegisterObjectNV in
  let* p := get in
  match h, dx with
  | Some h, Some dx =>
      if ok && has_key (interop_devices p) h && has_key (dx_textures p) dx
            && has_key (gl_textures p) name then
        let* o := fresh in
        modify (λ p, with_share_objects p
          (<[o := {| so_interop := h; so_dx := dx; so_gl := name; so_type := type;
                     so_access := access; so_locked := false |}]> (share_objects p)));;
        ret (Some o)
      else ret None
  | _, _ => ret None
  end.

Definition set_so_locked (b : bool) (so : share_object) : share_object :=
  {| so_interop := so_interop so; so_dx := so_dx so; so_gl := so_gl so;
     so_type := so_type so; so_access := so_access so; so_locked := b |}.

(** [wglDXLockObjectsNV (hDevice, 1, &hObject)]: fails on a null or closed
    device, an unregistered object, and an object that is already locked. *)
Definition wglDXLockObjectsNV (h o : option positive) : ST platform bool :=
  let* ok := call c_wglDXLockObjectsNV in
  let* p := get in
  match h, o with
  | Some h, Some o =>
      match share_objects p !! o with
      | Some so =>
          if ok && has_key (interop_devices p) h && bool_decide (so_interop so = h)
                && negb (so_locked so) then
            modify (λ p, with_share_objects p (<[o := set_so_locked true so]> (share_objects p)));;
            ret true
          else ret false
      | None => ret false
      end
  | _, _ => ret false
  end.

(** [wglDXUnlockObjectsNV (hDevice, 1, &hObject)]: fails on an object that
    is not locked. *)
Definition wglDXUnlockObjectsNV (h o : option positive) : ST platform bool :=
  let* ok := call c_wglDXUnlockObjectsNV in
  let* p := get in
  match h, o with
  | Some h, Some o =>
      match share_objects p !! o with
      | Some so =>
          if ok && has_key (interop_devices p) h && bool_decide (so_interop so = h)
                && so_locked so then
            modify (λ p, with_share_objects p (<[o := set_so_locked false so]> (share_objects p)));;
            ret true
          else ret false
      | None => ret false
      end
  | _, _ => ret false
  end.

(** [wglDXUnregisterObjectNV (hDevice, hObject)]. *)
Definition wglDXUnregisterObjectNV (h o : option positive) : ST platform bool :=
  let* p := get in
  match h, o with
  | Some h, Some o =>
      if has_key (interop_devices p) h && has_key (share_objects p) o then
        modify (λ p, with_share_objects p (delete o (share_objects p)));;
        ret true
      else ret false
  | _, _ => ret false
  end.

(** ** The media engine *)

Record MFVideoNormalizedRect := { nr_left : Z; nr_top : Z; nr_right : Z; nr_bottom : Z }.
Record RECT := { rc_left : Z; rc_top : Z; rc_right : Z; rc_bottom : Z }.
Record MFARGB := { rgbBlue : Z; rgbGreen : Z; rgbRed : Z; rgbAlpha : Z }.

Definition rect_within (r : RECT) (d : D3D11_TEXTURE2D_DESC) : bool :=
  (0 <=? rc_left r)%Z && (rc_left r <=? rc_right r)%Z && (rc_right r <=? Width d)%Z &&
  (0 <=? rc_top r)%Z && (rc_top r <=? rc_bottom r)%Z && (rc_bottom r <=? Height d)%Z.

(** Is the D3D surface [t] registered and currently locked by GL? *)
Definition surface_locked (p : platform) (t : positive) : bool :=
  existsb (λ '(_, so), bool_decide (so_dx so = t) && so_locked so)
    (map_to_list (share_objects p)).

(** [IMFMediaEngine::TransferVideoFrame (surface, &src, &dst, &border)]:
    a null surface is refused (E_POINTER) and the destination rectangle
    must lie in the surface.  A transfer into a
    surface that GL holds locked is the ordering hazard of the interop
    extension; it is counted. *)
Definition TransferVideoFrame (surface : option positive) (src : MFVideoNormalizedRect)
    (dst : RECT) (border : MFARGB) : ST platform bool :=
  let* ok := call c_TransferVideoFrame in
  let* p := get in
  match surface with
  | Some surface =>
      match dx_textures p !! surface with
      | Some d =>
          if ok && rect_within dst d then
            (if surface_locked p surface
             then modify (λ p, with_hazards p (S (hazards p))) else ret tt);;
            ret true
          else ret false
      | None => ret false
      end
  | None => ret false
  end.

(** No object is held by GL. *)
Definition no_locks (p : platform) : Prop :=
  ∀ o so, share_objects p !! o = Some so → so_locked so = false.

Lemma surface_locked_no_locks p t : no_locks p → surface_locked p t = false.
Proof.
  intros H. unfold surface_locked. apply not_true_iff_false. intros (x & Hx & Hb)%existsb_exists.
  destruct x as [o so]. apply list_elem_of_In, elem_of_map_to_list in Hx.
  rewrite (H _ _ Hx), andb_false_r in Hb. done.
Qed.

(** An update that adds no lock keeps [no_locks]. *)
Ltac solve_no_locks :=
  let Hn := fresh "Hn" in let o := fresh "o" in let so := fresh "so" in let H := fresh "H" in
  intros Hn o so H;
  repeat match type of H with
  | delete _ _ !! _ = Some _ => apply lookup_delete_Some in H as [? H]
  | <[_ := _]> _ !! _ = Some _ => apply lookup_insert_Some in H as [[? <-]|[? H]]
  end;
  first [ reflexivity | eapply Hn; eassumption ].

(** ** Proof support *)

(** The platform at process start: nothing allocated yet. *)
Definition platform_init (e : nat → ext_call → bool) (gl : bool) : platform :=
  {| env := e; clock := 0; gl_current := gl; next_id := 1%positive;
     dxgi_managers := ∅; devices := ∅; dx_textures := ∅; gl_textures := ∅;
     interop_devices := ∅; share_objects := ∅; hazards := 0 |}.

(** Oracles used by the witnesses: every call succeeds; or only the n-th
    call fails. *)
Definition env_all_ok : nat → ext_call → bool := λ _ _, true.
Definition env_fail_at (n : nat) : nat → ext_call → bool := λ k _, negb (Nat.eqb k n).

Ltac unfold_api :=
  unfold MFCreateDXGIDeviceManager, ReleaseDXGIDeviceManager, ResetDevice, SetUnknown,
    D3D11CreateDevice, QueryInterface_ID3D10Multithread, SetMultithreadProtected,
    ReleaseDevice, CreateTexture2D, ReleaseTexture2D, gl_Texture_create, glDeleteTexture,
    wglDXOpenDeviceNV, wglDXCloseDeviceNV, wglDXRegisterObjectNV, wglDXLockObjectsNV,
    wglDXUnlockObjectsNV, wglDXUnregisterObjectNV, TransferVideoFrame, call, fresh in *.

(** The same, leaving the primitives to their [wp] rules. *)
Ltac unfold_api_wp :=
  unfold MFCreateDXGIDeviceManager, ReleaseDXGIDeviceManager, ResetDevice, SetUnknown,
    D3D11CreateDevice, QueryInterface_ID3D10Multithread, SetMultithreadProtected,
    ReleaseDevice, CreateTexture2D, ReleaseTexture2D, gl_Texture_create, glDeleteTexture,
    wglDXOpenDeviceNV, wglDXCloseDeviceNV, wglDXRegisterObjectNV, wglDXLockObjectsNV,
    wglDXUnlockObjectsNV, wglDXUnregisterObjectNV, TransferVideoFrame.

(** Run symbolic code to its branches: reduce, rewrite the map lookups the
    code just made true, split the next branch, and clean up. *)
Ltac rewrite_oracle :=
  repeat match goal with
  | H : env ?p ?c ?x = ?b |- context [env ?p ?c ?x] => rewrite H
  end.

Ltac run_branches :=
  repeat (simpl in *; autorewrite with vp_map in *; case_match; simplify_eq/=; bool_hyps);
  unfold has_key in *; bool_hyps; rewrite_oracle;
  try match goal with H : ¬ (Some _ ≠ None) |- _ => exfalso; apply H; discriminate end;
  try match goal with H : ¬ is_Some ?x, H' : ?x = Some _ |- _ => exfalso; apply H; eexists; exact H' end;
  try done; try congruence.
