(* ===== verification/Process.v ===== *)
(** * The process: C++ objects, the interop singleton and the heap

    The classes of [AX-MediaPlayerMSWDXGIRenderPath.cxx] as records of their
    data members, and the state every operation of the render path runs on:
    the platform, the build configuration, the static [kInteropContext]
    pointer and the heap of [SharedTexture] objects that [unique_ptr]s and
    the frame lease's raw pointer point into.  Platform calls are lifted to
    this state, and the C++ [assert] is modelled for both builds. *)

From S2P Require Import Prelude Platform.
Open Scope vp_scope.

(** [class InteropContext]: its data members. *)
Record InteropContext := {
  ic_device : option positive;          (** [ComPtr<ID3D11Device> _device] *)
  ic_dxgiManager : option positive;     (** [ComPtr<IMFDXGIDeviceManager> _dxgiManager] *)
  ic_dxgiResetToken : Z;                (** [UINT _dxgiResetToken] *)
  ic_interopHandle : option positive;   (** [HANDLE _interopHandle] *)
  ic_isValid : bool                     (** [bool _isValid] *)
}.

(** [class DXGIRenderPath::SharedTexture]: its data members. *)
Record SharedTexture := {
  st_glTexture : option positive;       (** [ci::gl::TextureRef _glTexture] *)
  st_dxTexture : option positive;       (** [ComPtr<ID3D11Texture2D> _dxTexture] *)
  st_shareHandle : option positive;     (** [HANDLE _shareHandle] *)
  st_isValid : bool;
  st_isLocked : bool;
  st_presentationTimestamp : Z          (** [LONGLONG], [-1] until set *)
}.

Definition set_isLocked (b : bool) (t : SharedTexture) : SharedTexture :=
  {| st_glTexture := st_glTexture t; st_dxTexture := st_dxTexture t;
     st_shareHandle := st_shareHandle t; st_isValid := st_isValid t;
     st_isLocked := b; st_presentationTimestamp := st_presentationTimestamp t |}.

(** [SetPresentationTimestamp (pts)] (line 95). *)
Definition SetPresentationTimestamp (pts : Z) (t : SharedTexture) : SharedTexture :=
  {| st_glTexture := st_glTexture t; st_dxTexture := st_dxTexture t;
     st_shareHandle := st_shareHandle t; st_isValid := st_isValid t;
     st_isLocked := st_isLocked t; st_presentationTimestamp := pts |}.

(** The process.  [ndebug] is the build ([NDEBUG] defined: asserts compiled
    out, no debug device); [wglDX_loaded] says whether the GL loader found
    the WGL_NV_DX_interop entry points (they are function pointers). *)
Record world := {
  plat : platform;
  ndebug : bool;
  wglDX_loaded : bool;
  kInteropContext : option InteropContext;
  heap : gmap positive SharedTexture
}.

Definition with_plat (w : world) (p : platform) : world :=
  {| plat := p; ndebug := ndebug w; wglDX_loaded := wglDX_loaded w;
     kInteropContext := kInteropContext w; heap := heap w |}.
Definition with_kInteropContext (w : world) (c : option InteropContext) : world :=
  {| plat := plat w; ndebug := ndebug w; wglDX_loaded := wglDX_loaded w;
     kInteropContext := c; heap := heap w |}.
Definition with_ndebug (w : world) (b : bool) : world :=
  {| plat := plat w; ndebug := b; wglDX_loaded := wglDX_loaded w;
     kInteropContext := kInteropContext w; heap := heap w |}.
Definition with_heap (w : world) (h : gmap positive SharedTexture) : world :=
  {| plat := plat w; ndebug := ndebug w; wglDX_loaded := wglDX_loaded w;
     kInteropContext := kInteropContext w; heap := h |}.

(** Run a platform call on the process. *)
Definition lift {A} (m : ST platform A) : ST world A :=
  λ w, match m (plat w) with
       | Ok (a, p) => Ok (a, with_plat w p)
       | Err f => Err f
       end.

(** [assert (b)]: aborts in a debug build, does nothing with [NDEBUG]. *)
Definition assert (b : bool) (site : string) : ST world unit :=
  λ w, if b || ndebug w then Ok (tt, w) else Err (AssertionFailed site).

(** ** The heap *)

(** [new SharedTexture] once constructed: a fresh address. *)
Definition alloc (t : SharedTexture) : ST world positive :=
  let* a := lift fresh in
  modify (λ w, with_heap w (<[a := t]> (heap w)));;
  ret a.

(** Reading through a pointer: a freed object is a use after free. *)
Definition load (a : positive) (site : string) : ST world SharedTexture :=
  let* w := get in
  match heap w !! a with
  | Some t => ret t
  | None => throw (UseAfterFree site)
  end.

Definition store (a : positive) (t : SharedTexture) : ST world unit :=
  modify (λ w, with_heap w (<[a := t]> (heap w))).

Definition free (a : positive) : ST world unit :=
  modify (λ w, with_heap w (delete a (heap w))).

(** The process at start: no context, empty heap. *)
Definition world_init (p : platform) (nd loaded : bool) : world :=
  {| plat := p; ndebug := nd; wglDX_loaded := loaded; kInteropContext := None; heap := ∅ |}.

Ltac unfold_proc := unfold lift, assert, alloc, load, store, free in *; unfold_api; st_simpl.

(** ** Facts every operation keeps

    [fresh_ok w]: every surface, GL texture, registration and heap object
    has a name below the allocator, so a name handed out later is new.
    [ctx_ok w]: the singleton exists with a device and an open interop
    device, so [Get] and the calls through the context do not fault.
    [frame w w']: what no operation of the render path changes; the
    allocator only grows. *)
Definition fresh_ok (w : world) : Prop :=
  let n := next_id (plat w) in
  below (dx_textures (plat w)) n ∧ below (gl_textures (plat w)) n ∧
  below (share_objects (plat w)) n ∧ below (heap w) n.

Definition ctx_ok (w : world) : Prop :=
  ∃ ic dev h, kInteropContext w = Some ic ∧ ic_device ic = Some dev ∧
    ic_interopHandle ic = Some h ∧ is_Some (interop_devices (plat w) !! h).

Definition frame (w w' : world) : Prop :=
  kInteropContext w' = kInteropContext w ∧ ndebug w' = ndebug w ∧
  env (plat w') = env (plat w) ∧ gl_current (plat w') = gl_current (plat w) ∧
  interop_devices (plat w') = interop_devices (plat w) ∧
  (next_id (plat w) <= next_id (plat w'))%positive.

(** ** Lemmas on lifting and on the heap *)

Lemma load_Ok a site w t : heap w !! a = Some t → load a site w = Ok (t, w).
Proof. intros H. unfold load. st_simpl. by rewrite H. Qed.

Lemma load_Err a site w : heap w !! a = None → load a site w = Err (UseAfterFree site).
Proof. intros H. unfold load. st_simpl. by rewrite H. Qed.


Lemma lift_Ok {A} (m : ST platform A) w a p :
  m (plat w) = Ok (a, p) → lift m w = Ok (a, with_plat w p).
Proof. unfold lift. by intros ->. Qed.

Lemma assert_true b site w : b = true → assert b site w = Ok (tt, w).
Proof. intros ->. done. Qed.

Lemma assert_ndebug b site w : ndebug w = true → assert b site w = Ok (tt, w).
Proof. intros H. unfold assert. by rewrite H, orb_true_r. Qed.

Lemma assert_fails b site w :
  b = false → ndebug w = false → assert b site w = Err (AssertionFailed site).
Proof. intros -> H. unfold assert. by rewrite H. Qed.

(** ** The [wp] of the process operations *)

Lemma wp_lift {A} E (m : ST platform A) (Q : A → world → Prop) w :
  wp E m (λ a p, Q a (with_plat w p)) (plat w) → wp E (lift m) Q w.
Proof. unfold wp, lift. by destruct (m (plat w)) as [[a p]|f]. Qed.

Lemma wp_assert E (Q : unit → world → Prop) b site w :
  (b || ndebug w = true → Q tt w) → (b || ndebug w = false → E (AssertionFailed site)) →
  wp E (assert b site) Q w.
Proof. unfold wp, assert. destruct (b || ndebug w); auto. Qed.

Lemma wp_load E (Q : SharedTexture → world → Prop) a site w t :
  heap w !! a = Some t → Q t w → wp E (load a site) Q w.
Proof. intros Ha HQ. unfold wp. by rewrite (load_Ok _ _ _ _ Ha). Qed.

Lemma wp_store E (Q : unit → world → Prop) a t w :
  Q tt (with_heap w (<[a := t]> (heap w))) → wp E (store a t) Q w.
Proof. done. Qed.

Lemma wp_free E (Q : unit → world → Prop) a w :
  Q tt (with_heap w (delete a (heap w))) → wp E (free a) Q w.
Proof. done. Qed.

Lemma wp_alloc E (Q : positive → world → Prop) t w :
  Q (next_id (plat w))
    (with_heap (with_plat w (with_next_id (plat w) (Pos.succ (next_id (plat w)))))
       (<[next_id (plat w) := t]> (heap w))) →
  wp E (alloc t) Q w.
Proof. done. Qed.

(** Symbolic execution through the process and platform primitives. *)
Ltac wp_facts :=
  repeat match goal with
  | H : ?m !! ?k = Some _ |- context [has_key ?m ?k] => rewrite (has_key_Some m k _ H)
  | H : env ?p ?c ?x = _ |- context [env ?p ?c ?x] => rewrite H
  end.

Ltac wp_run :=
  repeat (lazymatch goal with |- wp _ _ _ _ => idtac end;
          first [ wp_step | apply wp_lift | apply wp_call | apply wp_fresh
                | apply wp_store | apply wp_free | apply wp_alloc
                | progress unfold load | apply wp_assert; intros ? ];
          simpl; autorewrite with vp_map; wp_facts; simpl).

Lemma frame_refl w : frame w w.
Proof. unfold frame. split_and!; done || lia. Qed.

Lemma frame_trans w1 w2 w3 : frame w1 w2 → frame w2 w3 → frame w1 w3.
Proof. unfold frame. intros (?&?&?&?&?&?) (?&?&?&?&?&?). split_and!; congruence || lia. Qed.

Lemma ctx_ok_frame w w' : frame w w' → ctx_ok w → ctx_ok w'.
Proof.
  intros (Hk & _ & _ & _ & Hi & _) (ic & dev & h & ? & ? & ? & ?).
  exists ic, dev, h. rewrite Hk, Hi. done.
Qed.
