(* ===== verification/Interop.v ===== *)
(** * InteropContext: the process-wide D3D11 device and interop bridge

    Lines 32-78 and 135-197 of [AX-MediaPlayerMSWDXGIRenderPath.cxx]: the
    constructor's five gated initialisation steps, the lazy singleton
    ([StaticInitialize], [Get]) and the destructor.  The theorems show that
    the context is valid exactly when every step succeeded, that a valid
    context owns a multithread-protected video device bound to the DXGI
    manager and opened on the interop bridge, that a failed context opens
    no bridge, and that the singleton is built once and never retried. *)

From S2P Require Import Prelude Platform Process.
Open Scope vp_scope.

Module Interop.

(** A context in which no initialisation step has taken effect. *)
Definition ic_empty : InteropContext :=
  {| ic_device := None; ic_dxgiManager := None; ic_dxgiResetToken := 0;
     ic_interopHandle := None; ic_isValid := false |}.

(** [InteropContext::InteropContext ()] (lines 135-165).  Each [return]
    leaves the members set so far.  The bridge is opened through the
    [wglDXOpenDeviceNV] function pointer: the source computes whether it is
    null ([isNull]) but calls it regardless. *)
Definition InteropContext_ctor : ST world InteropContext :=
  let* w := get in
  let deviceFlags0 := Z.lor D3D11_CREATE_DEVICE_BGRA_SUPPORT D3D11_CREATE_DEVICE_VIDEO_SUPPORT in
  let deviceFlags :=
    if ndebug w then deviceFlags0 else Z.lor deviceFlags0 D3D11_CREATE_DEVICE_DEBUG in
  let* m := lift MFCreateDXGIDeviceManager in
  match m with
  | None => ret ic_empty
  | Some (token, mgr) =>
      let* d := lift (D3D11CreateDevice deviceFlags) in
      match d with
      | None =>
          ret {| ic_device := None; ic_dxgiManager := Some mgr; ic_dxgiResetToken := token;
                 ic_interopHandle := None; ic_isValid := false |}
      | Some dev =>
          let ic2 := {| ic_device := Some dev; ic_dxgiManager := Some mgr;
                        ic_dxgiResetToken := token; ic_interopHandle := None;
                        ic_isValid := false |} in
          let* mt := lift (QueryInterface_ID3D10Multithread dev) in
          if mt then
            lift (SetMultithreadProtected dev true);;
            let* reset := lift (ResetDevice mgr dev token) in
            if reset then
              let* w := get in
              if wglDX_loaded w then
                let* h := lift (wglDXOpenDeviceNV dev) in
                ret {| ic_device := Some dev; ic_dxgiManager := Some mgr;
                       ic_dxgiResetToken := token; ic_interopHandle := h;
                       ic_isValid := bool_decide (h ≠ None) |}
              else throw (NullDereference "wglDXOpenDeviceNV")
            else ret ic2
          else ret ic2
      end
  end.

(** [InteropContext::StaticInitialize ()] (lines 66-72). *)
Definition StaticInitialize : ST world unit :=
  let* w := get in
  match kInteropContext w with
  | Some _ => ret tt
  | None =>
      let* ic := InteropContext_ctor in
      modify (λ w, with_kInteropContext w (Some ic))
  end.

(** [InteropContext::Get ()] (lines 74-78): [assert (kInteropContext)] then
    [*kInteropContext]. *)
Definition Get : ST world InteropContext :=
  let* w := get in
  match kInteropContext w with
  | Some ic => ret ic
  | None =>
      assert false "kInteropContext";;
      throw (NullDereference "*kInteropContext")
  end.

(** [InteropContext::~InteropContext ()] (lines 175-197), followed by the
    release of the [_device] member.  A debug build reports the D3D objects
    still alive ([ReportLiveDeviceObjects]); the report is the result. *)
Definition InteropContext_dtor (ic : InteropContext) : ST world (list positive) :=
  (match ic_interopHandle ic with
   | Some h => lift (wglDXCloseDeviceNV h);; ret tt
   | None => ret tt
   end);;
  (match ic_dxgiManager ic with
   | Some m => lift (ReleaseDXGIDeviceManager m)
   | None => ret tt
   end);;
  let* w := get in
  let report :=
    match ic_device ic with
    | Some _ => if ndebug w then [] else elements (dom (dx_textures (plat w)))
    | None => []
    end in
  (match ic_device ic with
   | Some d => lift (ReleaseDevice d)
   | None => ret tt
   end);;
  ret report.

(** ** What a valid context guarantees *)

(** The platform holds the context's device, multithread protected and
    created with video support, reset into its DXGI manager, and opened
    on the interop bridge. *)
Definition context_ok (p : platform) (ic : InteropContext) : Prop :=
  ∃ dev mgr h d,
    ic_device ic = Some dev ∧ ic_dxgiManager ic = Some mgr ∧ ic_interopHandle ic = Some h ∧
    devices p !! dev = Some d ∧ dev_multithread_protected d = true ∧
    Z.land (dev_flags d) D3D11_CREATE_DEVICE_VIDEO_SUPPORT = D3D11_CREATE_DEVICE_VIDEO_SUPPORT ∧
    dxgi_managers p !! mgr = Some (Some dev) ∧ interop_devices p !! h = Some dev.

(** The oracle answers the constructor receives, from clock [c]. *)
Definition init_steps_succeed (p : platform) : Prop :=
  let c := clock p in
  env p c c_MFCreateDXGIDeviceManager = true ∧
  env p (S c) c_D3D11CreateDevice = true ∧
  env p (S (S c)) c_QueryInterface_ID3D10Multithread = true ∧
  env p (S (S (S c))) c_ResetDevice = true ∧
  env p (S (S (S (S c)))) c_wglDXOpenDeviceNV = true ∧
  gl_current p = true.

(** ** Theorems *)

Ltac run_ctor := unfold InteropContext_ctor, init_steps_succeed in *; unfold_proc; run_branches.

(** C1. The constructor terminates without fault when the interop entry
    points are loaded, and the context it builds is valid exactly when the
    five initialisation calls succeeded and a GL context was current. *)
Theorem InteropContext_ctor_valid_iff (w : world) :
  wglDX_loaded w = true →
  ∃ ic w', InteropContext_ctor w = Ok (ic, w') ∧
    (ic_isValid ic = true ↔ init_steps_succeed (plat w)).
Proof.
  intros Hl. run_ctor.
  all: eexists _, _; split; [reflexivity|]; simpl; intuition congruence.
Qed.

Lemma InteropContext_ctor_valid_iff_witness :
  wglDX_loaded (world_init (platform_init env_all_ok true) true true) = true ∧
  ∃ ic w', InteropContext_ctor (world_init (platform_init env_all_ok true) true true) = Ok (ic, w') ∧
    (ic_isValid ic = true ↔ init_steps_succeed (plat (world_init (platform_init env_all_ok true) true true))).
Proof. split; [reflexivity|]. apply InteropContext_ctor_valid_iff. reflexivity. Defined.

(** C2. A valid context owns a D3D11 device created with video support and
    made multithread protected, reset into the context's DXGI manager, and
    opened on the interop bridge under the context's handle. *)
Theorem InteropContext_ctor_context_ok (w w' : world) (ic : InteropContext) :
  InteropContext_ctor w = Ok (ic, w') → ic_isValid ic = true → context_ok (plat w') ic.
Proof.
  intros Hrun Hv. unfold context_ok. run_ctor.
  all: eexists _, _, _, _; simplify_map_eq; repeat split; done.
Qed.

Lemma InteropContext_ctor_context_ok_witness :
  match InteropContext_ctor (world_init (platform_init env_all_ok true) false true) with
  | Ok (ic, w') => context_ok (plat w') ic
  | Err _ => False
  end.
Proof.
  destruct (InteropContext_ctor _) as [[ic w']|f] eqn:E; [|vm_compute in E; discriminate].
  apply (InteropContext_ctor_context_ok _ _ _ E).
  vm_compute in E. injection E as <- _. reflexivity.
Defined.

(** C3. A failed initialisation opens no interop bridge: when the context
    comes out invalid, the set of open interop devices is unchanged. *)
Theorem InteropContext_ctor_invalid_no_bridge (w w' : world) (ic : InteropContext) :
  InteropContext_ctor w = Ok (ic, w') → ic_isValid ic = false →
  interop_devices (plat w') = interop_devices (plat w).
Proof.
  intros Hrun Hv. run_ctor.
  all: match goal with H : ¬ (_ ≠ _) |- _ => exfalso; apply H; discriminate end.
Qed.

Lemma InteropContext_ctor_invalid_no_bridge_witness :
  match InteropContext_ctor (world_init (platform_init env_all_ok false) true true) with
  | Ok (ic, w') =>
      interop_devices (plat w') = interop_devices (plat (world_init (platform_init env_all_ok false) true true))
  | Err _ => False
  end.
Proof.
  destruct (InteropContext_ctor _) as [[ic w']|f] eqn:E; [|vm_compute in E; discriminate].
  apply (InteropContext_ctor_invalid_no_bridge _ _ _ E).
  vm_compute in E. injection E as <- _. reflexivity.
Defined.

(** C4. When the loader did not find [wglDXOpenDeviceNV] and the first four
    steps succeed, the constructor calls through a null function pointer:
    the [isNull] test it computes is never used. *)
Theorem InteropContext_ctor_null_entry_point (w : world) :
  wglDX_loaded w = false →
  env (plat w) (clock (plat w)) c_MFCreateDXGIDeviceManager = true →
  env (plat w) (S (clock (plat w))) c_D3D11CreateDevice = true →
  env (plat w) (S (S (clock (plat w)))) c_QueryInterface_ID3D10Multithread = true →
  env (plat w) (S (S (S (clock (plat w))))) c_ResetDevice = true →
  InteropContext_ctor w = Err (NullDereference "wglDXOpenDeviceNV").
Proof. intros Hl H1 H2 H3 H4. run_ctor. Qed.

Lemma InteropContext_ctor_null_entry_point_witness :
  InteropContext_ctor (world_init (platform_init env_all_ok true) true false)
  = Err (NullDereference "wglDXOpenDeviceNV").
Proof. apply InteropContext_ctor_null_entry_point; reflexivity. Defined.

(** C5. The singleton is created once: once [kInteropContext] is set,
    [StaticInitialize] changes nothing, so a context that failed to
    initialise is never retried. *)
Theorem StaticInitialize_idempotent (w : world) (ic : InteropContext) :
  kInteropContext w = Some ic → StaticInitialize w = Ok (tt, w).
Proof. intros H. unfold StaticInitialize. st_simpl. by rewrite H. Qed.

Lemma StaticInitialize_idempotent_witness :
  StaticInitialize (with_kInteropContext (world_init (platform_init env_all_ok true) true true)
                      (Some ic_empty))
  = Ok (tt, with_kInteropContext (world_init (platform_init env_all_ok true) true true)
              (Some ic_empty)).
Proof. apply (StaticInitialize_idempotent _ ic_empty). reflexivity. Defined.

(** C6. [Get] before [StaticInitialize] is a contract violation: the
    assertion fails in a debug build, and a release build dereferences the
    null [kInteropContext]. *)
Theorem Get_uninitialized (w : world) :
  kInteropContext w = None →
  Get w = Err (if ndebug w then NullDereference "*kInteropContext"
               else AssertionFailed "kInteropContext").
Proof. intros H. unfold Get, assert. st_simpl. rewrite H. by destruct (ndebug w). Qed.

Lemma Get_uninitialized_witness :
  Get (world_init (platform_init env_all_ok true) false true) = Err (AssertionFailed "kInteropContext").
Proof. apply Get_uninitialized. reflexivity. Defined.

End Interop.
