(* ===== verification/SharedTexture.v ===== *)
(** * SharedTexture: a D3D11 surface shared with GL through the bridge

    Lines 80-105, 167-173 and 199-255 of [AX-MediaPlayerMSWDXGIRenderPath.cxx]:
    the constructor (surface, GL texture, registration), [Lock], [Unlock],
    the destructor with its shutdown path, and
    [InteropContext::CreateSharedTexture], which keeps a texture only when
    its registration succeeded.  Objects live in the heap of [Process]; the
    operations take their address, as the C++ methods take [this]. *)

From S2P Require Import Prelude Platform Process Interop.
Open Scope vp_scope.

Module Tex.
Import Interop.

(** The descriptor of lines 201-210; [desc.Width = size.x] converts the
    [int] to [UINT]. *)
Definition SharedTexture_desc (size : Z * Z) : D3D11_TEXTURE2D_DESC :=
  {| Width := to_uint32 size.1; Height := to_uint32 size.2; MipLevels := 1; ArraySize := 1;
     Format := DXGI_FORMAT_B8G8R8A8_UNORM; SampleDesc_Count := 1; SampleDesc_Quality := 0;
     Usage := D3D11_USAGE_DEFAULT; BindFlags := D3D11_BIND_RENDER_TARGET;
     CPUAccessFlags := 0; MiscFlags := 0 |}.

(** The GL format of line 216-217: [internalFormat (GL_RGBA).loadTopDown ()]. *)
Definition SharedTexture_glformat : gl_texture_format :=
  {| fmt_internalFormat := GL_RGBA; fmt_loadTopDown := true |}.

(** A texture none of whose members was set. *)
Definition st_empty : SharedTexture :=
  {| st_glTexture := None; st_dxTexture := None; st_shareHandle := None;
     st_isValid := false; st_isLocked := false; st_presentationTimestamp := -1 |}.

(** [SharedTexture::SharedTexture (size)] (lines 199-223).  [context.Device ()]
    is null when the context failed before creating its device: the call
    [CreateTexture2D] through it is a null dereference. *)
Definition SharedTexture_ctor (size : Z * Z) : ST world SharedTexture :=
  let desc := SharedTexture_desc size in
  let* context := Get in
  match ic_device context with
  | None => throw (NullDereference "context.Device ()->CreateTexture2D")
  | Some dev =>
      let* t := lift (CreateTexture2D dev desc) in
      match t with
      | None => ret st_empty
      | Some t =>
          let* gl := lift (gl_Texture_create size.1 size.2 SharedTexture_glformat) in
          let* sh := lift (wglDXRegisterObjectNV (ic_interopHandle context) (Some t) gl
                             GL_TEXTURE_2D WGL_ACCESS_READ_ONLY_NV) in
          ret {| st_glTexture := Some gl; st_dxTexture := Some t; st_shareHandle := sh;
                 st_isValid := bool_decide (sh ≠ None); st_isLocked := false;
                 st_presentationTimestamp := -1 |}
      end
  end.

(** [SharedTexture::Lock ()] (lines 225-230): the flag takes the result of
    the bridge call. *)
Definition Lock (a : positive) : ST world bool :=
  let* t := load a "SharedTexture::Lock" in
  assert (negb (st_isLocked t)) "!IsLocked ()";;
  let* ic := Get in
  let* r := lift (wglDXLockObjectsNV (ic_interopHandle ic) (st_shareHandle t)) in
  store a (set_isLocked r t);;
  ret r.

(** [SharedTexture::Unlock ()] (lines 232-242): the flag is cleared only
    when the bridge call succeeds. *)
Definition Unlock (a : positive) : ST world bool :=
  let* t := load a "SharedTexture::Unlock" in
  assert (st_isLocked t) "IsLocked ()";;
  let* ic := Get in
  let* r := lift (wglDXUnlockObjectsNV (ic_interopHandle ic) (st_shareHandle t)) in
  if r then store a (set_isLocked false t);; ret true
  else ret false.

(** [SharedTexture::~SharedTexture ()] (lines 244-255), then the members'
    destructors in reverse order of declaration: [_dxTexture] releases the
    surface, [_glTexture] the GL texture.  Without a current GL context
    the bridge is not touched. *)
Definition SharedTexture_dtor (t : SharedTexture) : ST world unit :=
  (match st_shareHandle t with
   | Some sh =>
       let* w := get in
       if gl_current (plat w) then
         (if st_isLocked t then
            let* ic := Get in
            lift (wglDXUnlockObjectsNV (ic_interopHandle ic) (Some sh));; ret tt
          else ret tt);;
         let* ic := Get in
         lift (wglDXUnregisterObjectNV (ic_interopHandle ic) (Some sh));;
         ret tt
       else ret tt
   | None => ret tt
   end);;
  (match st_dxTexture t with Some d => lift (ReleaseTexture2D d) | None => ret tt end);;
  (match st_glTexture t with Some n => lift (glDeleteTexture n) | None => ret tt end).

(** [delete] through an owning pointer. *)
Definition destroy (a : positive) : ST world unit :=
  let* t := load a "~SharedTexture" in
  SharedTexture_dtor t;;
  free a.

(** [InteropContext::CreateSharedTexture (size)] (lines 167-173): the
    [unique_ptr] is returned when the texture is valid and destroyed
    otherwise. *)
Definition CreateSharedTexture (size : Z * Z) : ST world (option positive) :=
  let* t := SharedTexture_ctor size in
  let* a := alloc t in
  if st_isValid t then ret (Some a)
  else destroy a;; ret None.

(** ** The texture as the bridge sees it

    [tex_sync w t]: [t] is registered with the context's interop device,
    over its own surface and GL texture, and its [_isLocked] flag is the
    lock state the bridge holds. *)
Definition tex_sync (w : world) (t : SharedTexture) : Prop :=
  ∃ ic o so,
    kInteropContext w = Some ic ∧
    st_shareHandle t = Some o ∧
    share_objects (plat w) !! o = Some so ∧
    ic_interopHandle ic = Some (so_interop so) ∧
    is_Some (interop_devices (plat w) !! so_interop so) ∧
    st_dxTexture t = Some (so_dx so) ∧
    st_glTexture t = Some (so_gl so) ∧
    so_locked so = st_isLocked t.

(** The same, decided. *)
Definition tex_syncb (w : world) (t : SharedTexture) : bool :=
  match kInteropContext w, st_shareHandle t with
  | Some ic, Some o =>
      match share_objects (plat w) !! o with
      | Some so =>
          bool_decide (ic_interopHandle ic = Some (so_interop so)) &&
          has_key (interop_devices (plat w)) (so_interop so) &&
          bool_decide (st_dxTexture t = Some (so_dx so)) &&
          bool_decide (st_glTexture t = Some (so_gl so)) &&
          Bool.eqb (so_locked so) (st_isLocked t)
      | None => false
      end
  | _, _ => false
  end.

Lemma tex_syncb_spec w t : tex_syncb w t = true ↔ tex_sync w t.
Proof.
  unfold tex_syncb, tex_sync, has_key. split.
  - intros H. repeat case_match; try done. bool_hyps.
    match goal with Hb : Bool.eqb _ _ = true |- _ => apply Bool.eqb_prop in Hb end.
    eauto 20.
  - intros (ic & o & so & -> & -> & -> & Hh & Hd & Hdx & Hgl & Hl).
    rewrite !bool_decide_eq_true_2 by done. rewrite Hl. apply Bool.eqb_reflx.
Qed.

(** The surface, GL texture and registration a texture of [size] is built
    from (lines 201-221). *)
Definition surface_ok (w : world) (t : SharedTexture) (size : Z * Z) : Prop :=
  ∃ dx gl o so,
    st_dxTexture t = Some dx ∧ st_glTexture t = Some gl ∧ st_shareHandle t = Some o ∧
    dx_textures (plat w) !! dx = Some (SharedTexture_desc size) ∧
    gl_textures (plat w) !! gl =
      Some {| gl_width := size.1; gl_height := size.2; gl_internal_format := GL_RGBA;
              gl_load_top_down := true |} ∧
    share_objects (plat w) !! o = Some so ∧
    so_type so = GL_TEXTURE_2D ∧ so_access so = WGL_ACCESS_READ_ONLY_NV.

(** The same, decided. *)
Definition surface_okb (w : world) (t : SharedTexture) (size : Z * Z) : bool :=
  match st_dxTexture t, st_glTexture t, st_shareHandle t with
  | Some dx, Some gl, Some o =>
      bool_decide (dx_textures (plat w) !! dx = Some (SharedTexture_desc size)) &&
      bool_decide (gl_textures (plat w) !! gl =
        Some {| gl_width := size.1; gl_height := size.2; gl_internal_format := GL_RGBA;
                gl_load_top_down := true |}) &&
      match share_objects (plat w) !! o with
      | Some so => bool_decide (so_type so = GL_TEXTURE_2D) &&
                   bool_decide (so_access so = WGL_ACCESS_READ_ONLY_NV)
      | None => false
      end
  | _, _, _ => false
  end.

Lemma surface_okb_sound w t size : surface_okb w t size = true → surface_ok w t size.
Proof.
  unfold surface_okb, surface_ok. intros H. repeat case_match; try done;
    rewrite ?andb_false_r in H; try done. bool_hyps.
  eexists _, _, _, _; split_and!; eauto.
Qed.

(** A process with a valid context and one texture of 1280x720 at address
    7, built by running the code: the input of the witnesses. *)
Definition demo_world0 : world := world_init (platform_init env_all_ok true) false true.
Definition after {A} (m : ST world A) (w : world) : world :=
  match m w with Ok (_, w') => w' | Err _ => w end.
Definition demo_world : world := after (StaticInitialize;; CreateSharedTexture (1280%Z, 720%Z)) demo_world0.
Definition demo_tex : SharedTexture := default st_empty (heap demo_world !! 7%positive).

Ltac run_tex := unfold Lock, Unlock, destroy, SharedTexture_dtor, Get in *; unfold_proc; run_branches.

(** The run of [Lock] on an unlocked, registered texture: the oracle's
    answer is the result and the flag; the clock advances by one call. *)
Lemma Lock_step (w : world) (a : positive) (t : SharedTexture) :
  heap w !! a = Some t → tex_sync w t → st_isLocked t = false →
  let r := env (plat w) (clock (plat w)) c_wglDXLockObjectsNV in
  ∃ w', Lock a w = Ok (r, w') ∧ heap w' = <[a := set_isLocked r t]> (heap w) ∧
        tex_sync w' (set_isLocked r t) ∧
        env (plat w') = env (plat w) ∧ clock (plat w') = S (clock (plat w)) ∧
        ndebug w' = ndebug w.
Proof.
  intros Ha (ic & o & so & Hic & Ho & Hso & Hh & Hdev & Hdx & Hgl & Hl) Hu r. subst r.
  run_tex.
  all: eexists; split; [reflexivity|]; split; [reflexivity|].
  all: split; [eexists _, _, _; simpl; simplify_map_eq; repeat split; eauto | done].
Qed.

(** C7. [Lock] on an unlocked, registered texture: no fault, the result is
    the bridge's answer, the flag takes that answer, and the texture stays
    in step with the bridge. *)
Theorem Lock_spec (w : world) (a : positive) (t : SharedTexture) :
  heap w !! a = Some t → tex_sync w t → st_isLocked t = false →
  let r := env (plat w) (clock (plat w)) c_wglDXLockObjectsNV in
  ∃ w', Lock a w = Ok (r, w') ∧ heap w' = <[a := set_isLocked r t]> (heap w) ∧
        tex_sync w' (set_isLocked r t).
Proof.
  intros Ha Hs Hu r. destruct (Lock_step w a t Ha Hs Hu) as (w' & H1 & H2 & H3 & _).
  eauto.
Qed.

Lemma Lock_spec_witness :
  heap demo_world !! 7%positive = Some demo_tex ∧ tex_sync demo_world demo_tex ∧
  st_isLocked demo_tex = false ∧
  ∃ w', Lock 7 demo_world = Ok (true, w') ∧
        heap w' = <[7%positive := set_isLocked true demo_tex]> (heap demo_world) ∧
        tex_sync w' (set_isLocked true demo_tex).
Proof.
  assert (Ha : heap demo_world !! 7%positive = Some demo_tex) by (vm_compute; reflexivity).
  assert (Hs : tex_sync demo_world demo_tex) by (apply tex_syncb_spec; vm_compute; reflexivity).
  assert (Hu : st_isLocked demo_tex = false) by (vm_compute; reflexivity).
  split; [exact Ha|]. split; [exact Hs|]. split; [exact Hu|].
  exact (Lock_spec demo_world 7 demo_tex Ha Hs Hu).
Defined.

(** The run of [Unlock] on a locked, registered texture. *)
Lemma Unlock_step (w : world) (a : positive) (t : SharedTexture) :
  heap w !! a = Some t → tex_sync w t → st_isLocked t = true →
  let r := env (plat w) (clock (plat w)) c_wglDXUnlockObjectsNV in
  ∃ w', Unlock a w = Ok (r, w') ∧
        heap w' = (if r then <[a := set_isLocked false t]> (heap w) else heap w) ∧
        tex_sync w' (if r then set_isLocked false t else t) ∧
        env (plat w') = env (plat w) ∧ clock (plat w') = S (clock (plat w)) ∧
        ndebug w' = ndebug w.
Proof.
  intros Ha (ic & o & so & Hic & Ho & Hso & Hh & Hdev & Hdx & Hgl & Hl) Hu r. subst r.
  run_tex.
  all: eexists; split; [reflexivity|]; split; [reflexivity|].
  all: split; [eexists _, _, _; simpl; simplify_map_eq; repeat split; eauto | done].
Qed.

(** C8. [Unlock] on a locked, registered texture: no fault, the result is
    the bridge's answer, the flag is cleared only on success (a failed
    unlock leaves the texture locked), and the texture stays in step with
    the bridge. *)
Theorem Unlock_spec (w : world) (a : positive) (t : SharedTexture) :
  heap w !! a = Some t → tex_sync w t → st_isLocked t = true →
  let r := env (plat w) (clock (plat w)) c_wglDXUnlockObjectsNV in
  ∃ w', Unlock a w = Ok (r, w') ∧
        heap w' = (if r then <[a := set_isLocked false t]> (heap w) else heap w) ∧
        tex_sync w' (if r then set_isLocked false t else t).
Proof.
  intros Ha Hs Hu r. destruct (Unlock_step w a t Ha Hs Hu) as (w' & H1 & H2 & H3 & _).
  eauto.
Qed.

Lemma Unlock_spec_witness :
  let w := after (Lock 7) demo_world in
  heap w !! 7%positive = Some (set_isLocked true demo_tex) ∧
  tex_sync w (set_isLocked true demo_tex) ∧ st_isLocked (set_isLocked true demo_tex) = true ∧
  ∃ w', Unlock 7 w = Ok (true, w') ∧
        heap w' = <[7%positive := set_isLocked false (set_isLocked true demo_tex)]> (heap w) ∧
        tex_sync w' (set_isLocked false (set_isLocked true demo_tex)).
Proof.
  intros w.
  assert (Ha : heap w !! 7%positive = Some (set_isLocked true demo_tex)) by (vm_compute; reflexivity).
  assert (Hs : tex_sync w (set_isLocked true demo_tex)) by (apply tex_syncb_spec; vm_compute; reflexivity).
  split; [exact Ha|]. split; [exact Hs|]. split; [reflexivity|].
  exact (Unlock_spec w 7 _ Ha Hs eq_refl).
Defined.

Lemma Lock_locked_debug (w : world) (a : positive) (t : SharedTexture) :
  heap w !! a = Some t → ndebug w = false → st_isLocked t = true →
  Lock a w = Err (AssertionFailed "!IsLocked ()").
Proof. intros Ha Hd Hl. run_tex. Qed.

(** C9. The locking contract in a debug build: [Lock] on a locked texture
    and [Unlock] on an unlocked one stop at their assertion. *)
Theorem Lock_Unlock_contract (w : world) (a : positive) (t : SharedTexture) :
  heap w !! a = Some t → ndebug w = false →
  (st_isLocked t = true → Lock a w = Err (AssertionFailed "!IsLocked ()")) ∧
  (st_isLocked t = false → Unlock a w = Err (AssertionFailed "IsLocked ()")).
Proof.
  intros Ha Hd. split; intros Hl; [exact (Lock_locked_debug w a t Ha Hd Hl) | run_tex].
Qed.

Lemma Lock_Unlock_contract_witness :
  heap demo_world !! 7%positive = Some demo_tex ∧ ndebug demo_world = false ∧
  (st_isLocked demo_tex = false → Unlock 7 demo_world = Err (AssertionFailed "IsLocked ()")).
Proof.
  assert (Ha : heap demo_world !! 7%positive = Some demo_tex) by (vm_compute; reflexivity).
  assert (Hd : ndebug demo_world = false) by reflexivity.
  split; [exact Ha|]. split; [exact Hd|].
  exact (proj2 (Lock_Unlock_contract demo_world 7 demo_tex Ha Hd)).
Defined.

(** C10. In a release build the assertion is gone: a second [Lock] on a
    locked texture gets [false] from the bridge, which still holds the
    lock, and stores it in [_isLocked].  The texture then believes it is
    unlocked while the bridge keeps it locked, so no [Unlock] will ever be
    issued for it. *)
Theorem Lock_release_double_lock (w : world) (a : positive) (t : SharedTexture) :
  heap w !! a = Some t → tex_sync w t → st_isLocked t = true → ndebug w = true →
  ∃ w' o so, Lock a w = Ok (false, w') ∧
    heap w' !! a = Some (set_isLocked false t) ∧
    st_shareHandle t = Some o ∧ share_objects (plat w') !! o = Some so ∧ so_locked so = true.
Proof.
  intros Ha (ic & o & so & Hic & Ho & Hso & Hh & Hdev & Hdx & Hgl & Hl) Hu Hnd.
  run_tex.
  all: eexists _, _, _; split; [reflexivity|]; simpl; simplify_map_eq; repeat split; eauto.
Qed.

Lemma Lock_release_double_lock_witness :
  let w := after (Lock 7) (with_ndebug demo_world true) in
  heap w !! 7%positive = Some (set_isLocked true demo_tex) ∧
  tex_sync w (set_isLocked true demo_tex) ∧ st_isLocked (set_isLocked true demo_tex) = true ∧
  ndebug w = true ∧
  ∃ w' o so, Lock 7 w = Ok (false, w') ∧
    heap w' !! 7%positive = Some (set_isLocked false (set_isLocked true demo_tex)) ∧
    st_shareHandle (set_isLocked true demo_tex) = Some o ∧
    share_objects (plat w') !! o = Some so ∧ so_locked so = true.
Proof.
  intros w.
  assert (Ha : heap w !! 7%positive = Some (set_isLocked true demo_tex)) by (vm_compute; reflexivity).
  assert (Hs : tex_sync w (set_isLocked true demo_tex)) by (apply tex_syncb_spec; vm_compute; reflexivity).
  assert (Hd : ndebug w = true) by reflexivity.
  split; [exact Ha|]. split; [exact Hs|]. split; [reflexivity|]. split; [exact Hd|].
  exact (Lock_release_double_lock w 7 _ Ha Hs eq_refl Hd).
Defined.

Ltac run_create := unfold CreateSharedTexture, SharedTexture_ctor in *; run_tex.

(** C11. [CreateSharedTexture] returns a texture only when it is valid: the
    texture is on the heap, unlocked, without timestamp, registered with
    the context's bridge, read-only for GL, over a B8G8R8A8 render-target
    surface of the requested size and an RGBA top-down GL texture of the
    same size. *)
Theorem CreateSharedTexture_ok (size : Z * Z) (w w' : world) (a : positive) :
  CreateSharedTexture size w = Ok (Some a, w') →
  ∃ t, heap w' !! a = Some t ∧ st_isValid t = true ∧ st_isLocked t = false ∧
       st_presentationTimestamp t = (-1)%Z ∧ tex_sync w' t ∧ surface_ok w' t size.
Proof.
  intros H. run_create.
  eexists; split; [simplify_map_eq; reflexivity|]. simpl.
  split_and!; try done.
  - eexists _, _, _; simpl; simplify_map_eq; repeat split; eauto.
  - eexists _, _, _, _; simpl; simplify_map_eq; repeat split.
Qed.

Lemma CreateSharedTexture_ok_witness :
  match CreateSharedTexture (1280%Z, 720%Z) (after StaticInitialize demo_world0) with
  | Ok (Some a, w') =>
      ∃ t, heap w' !! a = Some t ∧ st_isValid t = true ∧ st_isLocked t = false ∧
           st_presentationTimestamp t = (-1)%Z ∧ tex_sync w' t ∧ surface_ok w' t (1280%Z, 720%Z)
  | _ => False
  end.
Proof.
  destruct (CreateSharedTexture _ _) as [[[a|] w']|f] eqn:E; [| vm_compute in E; discriminate ..].
  exact (CreateSharedTexture_ok _ _ _ _ E).
Defined.

(** C12. A texture that could not be made valid is destroyed before
    [CreateSharedTexture] returns nothing: no surface, GL texture,
    registration or heap object is left behind by the call. *)
Theorem CreateSharedTexture_none_no_leak (size : Z * Z) (w w' : world) :
  CreateSharedTexture size w = Ok (None, w') →
  dom (dx_textures (plat w')) ⊆ dom (dx_textures (plat w)) ∧
  dom (gl_textures (plat w')) ⊆ dom (gl_textures (plat w)) ∧
  dom (share_objects (plat w')) ⊆ dom (share_objects (plat w)) ∧
  dom (heap w') ⊆ dom (heap w).
Proof.
  intros H. run_create.
  all: split_and!; first [apply dom_delete_insert_subseteq | done].
Qed.

Lemma CreateSharedTexture_none_no_leak_witness :
  let w := after StaticInitialize demo_world0 in
  match CreateSharedTexture (0%Z, 720%Z) w with
  | Ok (None, w') =>
      dom (dx_textures (plat w')) ⊆ dom (dx_textures (plat w)) ∧
      dom (gl_textures (plat w')) ⊆ dom (gl_textures (plat w)) ∧
      dom (share_objects (plat w')) ⊆ dom (share_objects (plat w)) ∧
      dom (heap w') ⊆ dom (heap w)
  | _ => False
  end.
Proof.
  intros w.
  destruct (CreateSharedTexture _ _) as [[[a|] w']|f] eqn:E; [vm_compute in E; discriminate | | vm_compute in E; discriminate].
  exact (CreateSharedTexture_none_no_leak _ _ _ E).
Defined.

(** C13. Destroying a registered texture while a GL context is current
    unregisters it from the bridge (after unlocking it if it was locked)
    and releases its surface and its GL texture. *)
Theorem SharedTexture_dtor_unregisters (w : world) (t : SharedTexture) :
  tex_sync w t → gl_current (plat w) = true →
  ∃ w', SharedTexture_dtor t w = Ok (tt, w') ∧
    (∀ o, st_shareHandle t = Some o → share_objects (plat w') !! o = None) ∧
    (∀ d, st_dxTexture t = Some d → dx_textures (plat w') !! d = None) ∧
    (∀ n, st_glTexture t = Some n → gl_textures (plat w') !! n = None).
Proof.
  intros (ic & o & so & Hic & Ho & Hso & Hh & Hdev & Hdx & Hgl & Hl) Hgc.
  run_tex.
  all: eexists; split; [reflexivity|]; split_and!; intros ? [= <-]; simplify_map_eq; done.
Qed.

Lemma SharedTexture_dtor_unregisters_witness :
  tex_sync demo_world demo_tex ∧ gl_current (plat demo_world) = true ∧
  ∃ w', SharedTexture_dtor demo_tex demo_world = Ok (tt, w') ∧
    (∀ o, st_shareHandle demo_tex = Some o → share_objects (plat w') !! o = None) ∧
    (∀ d, st_dxTexture demo_tex = Some d → dx_textures (plat w') !! d = None) ∧
    (∀ n, st_glTexture demo_tex = Some n → gl_textures (plat w') !! n = None).
Proof.
  assert (Hs : tex_sync demo_world demo_tex) by (apply tex_syncb_spec; vm_compute; reflexivity).
  assert (Hg : gl_current (plat demo_world) = true) by reflexivity.
  split; [exact Hs|]. split; [exact Hg|].
  exact (SharedTexture_dtor_unregisters _ _ Hs Hg).
Defined.

(** C14. Destroying a texture with no GL context current (shutdown) makes
    no bridge call: the registration stays in the bridge while the surface
    it names is released, the leak the source accepts to avoid calling
    into a torn-down context. *)
Theorem SharedTexture_dtor_shutdown_leaks (w : world) (t : SharedTexture) :
  gl_current (plat w) = false →
  ∃ w', SharedTexture_dtor t w = Ok (tt, w') ∧
    share_objects (plat w') = share_objects (plat w) ∧
    (∀ d, st_dxTexture t = Some d → dx_textures (plat w') !! d = None).
Proof.
  intros Hgc. run_tex.
  all: eexists; split; [reflexivity|]; split; [done|]; intros ? [= <-]; simplify_map_eq; done.
Qed.

Lemma SharedTexture_dtor_shutdown_leaks_witness :
  let w := with_plat demo_world (with_gl_current (plat demo_world) false) in
  gl_current (plat w) = false ∧
  ∃ w', SharedTexture_dtor demo_tex w = Ok (tt, w') ∧
    share_objects (plat w') = share_objects (plat w) ∧
    (∀ d, st_dxTexture demo_tex = Some d → dx_textures (plat w') !! d = None).
Proof.
  intros w. assert (Hg : gl_current (plat w) = false) by reflexivity.
  split; [exact Hg|]. exact (SharedTexture_dtor_shutdown_leaks _ _ Hg).
Defined.

End Tex.
