(* ===== verification/FrameLease.v ===== *)
(** * DXGIRenderPathFrameLease: the consumer's scoped lock on a texture

    Lines 107-133 of [AX-MediaPlayerMSWDXGIRenderPath.cxx].  The lease holds
    a raw, non-owning pointer into the heap; its constructor locks the
    texture (ignoring the result), its destructor unlocks it when the
    texture says it is locked.  [MediaPlayer::FrameLease], the interface it
    implements, is declared in [AX-MediaPlayer.h], which is not among the
    sources: it is the class [FrameLeaseInterface] here, with the three
    queries the consumer uses. *)

From S2P Require Import Prelude Platform Process Interop SharedTexture.
Open Scope vp_scope.

(** [MediaPlayer::FrameLease]: what a lease offers the renderer. *)
Class FrameLeaseInterface (L : Type) := {
  IsValid : L → ST world bool;
  ToTexture : L → ST world (option positive);
  GetPresentationTimeStamp : L → ST world Z
}.

Module Lease.
Import Interop Tex.

(** [SharedTexture * _texture{ nullptr }]. *)
Record DXGIRenderPathFrameLease := { fl_texture : option positive }.

(** The constructor (lines 111-115): [if (_texture) _texture->Lock ()]. *)
Definition FrameLease_ctor (texture : option positive) : ST world DXGIRenderPathFrameLease :=
  match texture with
  | Some a => Lock a;; ret {| fl_texture := Some a |}
  | None => ret {| fl_texture := None |}
  end.

(** [ToTexture ()] (line 118): the GL texture of the leased object. *)
Definition lease_ToTexture (l : DXGIRenderPathFrameLease) : ST world (option positive) :=
  match fl_texture l with
  | Some a => let* t := load a "DXGIRenderPathFrameLease::ToTexture" in ret (st_glTexture t)
  | None => ret None
  end.

(** [IsValid ()] (line 117): [ToTexture () != nullptr]. *)
Definition lease_IsValid (l : DXGIRenderPathFrameLease) : ST world bool :=
  let* x := lease_ToTexture l in ret (bool_decide (x ≠ None)).

(** [GetPresentationTimeStamp ()] (line 119): [-1] without a texture. *)
Definition lease_GetPresentationTimeStamp (l : DXGIRenderPathFrameLease) : ST world Z :=
  match fl_texture l with
  | Some a =>
      let* t := load a "DXGIRenderPathFrameLease::GetPresentationTimeStamp" in
      ret (st_presentationTimestamp t)
  | None => ret (-1)%Z
  end.

(** The destructor (lines 121-128): unlock when the texture is locked, then
    forget the pointer; the result of [Unlock] is dropped. *)
Definition FrameLease_dtor (l : DXGIRenderPathFrameLease) : ST world DXGIRenderPathFrameLease :=
  match fl_texture l with
  | Some a =>
      let* t := load a "~DXGIRenderPathFrameLease" in
      if st_isLocked t then Unlock a;; ret {| fl_texture := None |}
      else ret l
  | None => ret l
  end.

#[export] Instance DXGIRenderPathFrameLease_FrameLease : FrameLeaseInterface DXGIRenderPathFrameLease := {
  IsValid := lease_IsValid;
  ToTexture := lease_ToTexture;
  GetPresentationTimeStamp := lease_GetPresentationTimeStamp
}.

(** ** Theorems *)

Definition null_lease : DXGIRenderPathFrameLease := {| fl_texture := None |}.

(** C15. A lease built without a texture is invalid, reports the [-1]
    timestamp, and neither its construction nor its destruction touches
    the process. *)
Theorem FrameLease_null (w : world) :
  FrameLease_ctor None w = Ok (null_lease, w) ∧
  IsValid null_lease w = Ok (false, w) ∧
  GetPresentationTimeStamp null_lease w = Ok ((-1)%Z, w) ∧
  FrameLease_dtor null_lease w = Ok (null_lease, w).
Proof. done. Qed.

(** C16. The lifetime of a lease over an unlocked, registered texture:
    construction and destruction run without fault, the texture stays in
    step with the bridge, and it ends locked exactly when the constructor's
    lock succeeded and the destructor's unlock failed. *)
Theorem FrameLease_lifetime (w : world) (a : positive) (t : SharedTexture) :
  heap w !! a = Some t → tex_sync w t → st_isLocked t = false →
  ∃ l w1 l' w2 t',
    FrameLease_ctor (Some a) w = Ok (l, w1) ∧ FrameLease_dtor l w1 = Ok (l', w2) ∧
    heap w2 !! a = Some t' ∧ tex_sync w2 t' ∧
    st_isLocked t' = env (plat w) (clock (plat w)) c_wglDXLockObjectsNV
                     && negb (env (plat w) (S (clock (plat w))) c_wglDXUnlockObjectsNV).
Proof.
  intros Ha Hs Hu.
  destruct (Lock_step w a t Ha Hs Hu) as (w1 & Hl & Hh1 & Hs1 & He1 & Hc1 & _).
  assert (Ha1 : heap w1 !! a = Some (set_isLocked (env (plat w) (clock (plat w)) c_wglDXLockObjectsNV) t))
    by (rewrite Hh1; apply lookup_insert_eq).
  exists {| fl_texture := Some a |}, w1.
  unfold FrameLease_ctor, FrameLease_dtor. simpl. rewrite (bind_Ok _ _ _ _ _ Hl).
  destruct (env (plat w) (clock (plat w)) c_wglDXLockObjectsNV) eqn:Er.
  - destruct (Unlock_step w1 a _ Ha1 Hs1 eq_refl) as (w2 & Hu2 & Hh2 & Hs2 & _).
    rewrite He1, Hc1 in Hu2, Hh2, Hs2.
    destruct (env (plat w) (S (clock (plat w))) c_wglDXUnlockObjectsNV);
      eexists _, w2, _; (split; [reflexivity|]);
      unfold st_bind; rewrite (load_Ok _ _ _ _ Ha1); simpl; rewrite Hu2; (split; [reflexivity|]);
      rewrite Hh2; (split; [apply lookup_insert_eq || exact Ha1 | split; [exact Hs2 | done]]).
  - eexists _, w1, _. split; [reflexivity|].
    unfold st_bind. rewrite (load_Ok _ _ _ _ Ha1). simpl. split; [reflexivity|].
    split; [exact Ha1|]. split; [exact Hs1|]. done.
Qed.

Lemma FrameLease_lifetime_witness :
  heap demo_world !! 7%positive = Some demo_tex ∧ tex_sync demo_world demo_tex ∧
  st_isLocked demo_tex = false ∧
  ∃ l w1 l' w2 t',
    FrameLease_ctor (Some 7%positive) demo_world = Ok (l, w1) ∧ FrameLease_dtor l w1 = Ok (l', w2) ∧
    heap w2 !! 7%positive = Some t' ∧ tex_sync w2 t' ∧
    st_isLocked t' = env (plat demo_world) (clock (plat demo_world)) c_wglDXLockObjectsNV
                     && negb (env (plat demo_world) (S (clock (plat demo_world))) c_wglDXUnlockObjectsNV).
Proof.
  assert (Ha : heap demo_world !! 7%positive = Some demo_tex) by (vm_compute; reflexivity).
  assert (Hs : tex_sync demo_world demo_tex) by (apply tex_syncb_spec; vm_compute; reflexivity).
  assert (Hu : st_isLocked demo_tex = false) by (vm_compute; reflexivity).
  split; [exact Ha|]. split; [exact Hs|]. split; [exact Hu|].
  exact (FrameLease_lifetime demo_world 7 demo_tex Ha Hs Hu).
Defined.

(** C17. The lease does not look at the result of its lock: when the
    bridge refuses the lock, the lease still reports itself valid while
    the texture is unlocked. *)
Theorem FrameLease_valid_without_lock (w : world) (a : positive) (t : SharedTexture) :
  heap w !! a = Some t → tex_sync w t → st_isLocked t = false →
  env (plat w) (clock (plat w)) c_wglDXLockObjectsNV = false →
  ∃ w1, FrameLease_ctor (Some a) w = Ok ({| fl_texture := Some a |}, w1) ∧
        IsValid {| fl_texture := Some a |} w1 = Ok (true, w1) ∧
        heap w1 !! a = Some (set_isLocked false t).
Proof.
  intros Ha Hs Hu Hf.
  destruct (Lock_step w a t Ha Hs Hu) as (w1 & Hl & Hh1 & Hs1 & _).
  rewrite Hf in Hl, Hh1, Hs1.
  assert (Ha1 : heap w1 !! a = Some (set_isLocked false t)) by (rewrite Hh1; apply lookup_insert_eq).
  exists w1. unfold FrameLease_ctor. simpl. rewrite (bind_Ok _ _ _ _ _ Hl).
  split; [reflexivity|]. split; [|exact Ha1].
  destruct Hs1 as (ic & o & so & _ & _ & _ & _ & _ & _ & Hgl & _).
  simpl. unfold lease_IsValid, lease_ToTexture, st_bind. simpl.
  rewrite (load_Ok _ _ _ _ Ha1). simpl in Hgl |- *. rewrite Hgl. reflexivity.
Qed.

Lemma FrameLease_valid_without_lock_witness :
  let w := with_plat demo_world (with_env (plat demo_world) (env_fail_at 7)) in
  heap w !! 7%positive = Some demo_tex ∧ tex_sync w demo_tex ∧ st_isLocked demo_tex = false ∧
  env (plat w) (clock (plat w)) c_wglDXLockObjectsNV = false ∧
  ∃ w1, FrameLease_ctor (Some 7%positive) w = Ok ({| fl_texture := Some 7%positive |}, w1) ∧
        IsValid {| fl_texture := Some 7%positive |} w1 = Ok (true, w1) ∧
        heap w1 !! 7%positive = Some (set_isLocked false demo_tex).
Proof.
  intros w.
  assert (Ha : heap w !! 7%positive = Some demo_tex) by (vm_compute; reflexivity).
  assert (Hs : tex_sync w demo_tex) by (apply tex_syncb_spec; vm_compute; reflexivity).
  assert (Hu : st_isLocked demo_tex = false) by (vm_compute; reflexivity).
  assert (Hf : env (plat w) (clock (plat w)) c_wglDXLockObjectsNV = false) by (vm_compute; reflexivity).
  split; [exact Ha|]. split; [exact Hs|]. split; [exact Hu|]. split; [exact Hf|].
  exact (FrameLease_valid_without_lock w 7 demo_tex Ha Hs Hu Hf).
Defined.

(** C18. The destructor drops the result of [Unlock]: when the unlock of a
    lease fails, the texture stays locked, and the next lease on it (the
    next frame's [GetFrameLease]) stops at [Lock]'s assertion in a debug
    build. *)
Theorem FrameLease_failed_unlock_next_lease (w : world) (a : positive) (t : SharedTexture) :
  heap w !! a = Some t → tex_sync w t → st_isLocked t = false → ndebug w = false →
  env (plat w) (clock (plat w)) c_wglDXLockObjectsNV = true →
  env (plat w) (S (clock (plat w))) c_wglDXUnlockObjectsNV = false →
  ∃ l w1 l' w2,
    FrameLease_ctor (Some a) w = Ok (l, w1) ∧ FrameLease_dtor l w1 = Ok (l', w2) ∧
    FrameLease_ctor (Some a) w2 = Err (AssertionFailed "!IsLocked ()").
Proof.
  intros Ha Hs Hu Hd Hlk Hul.
  destruct (Lock_step w a t Ha Hs Hu) as (w1 & Hl & Hh1 & Hs1 & He1 & Hc1 & Hd1).
  rewrite Hlk in Hl, Hh1, Hs1.
  assert (Ha1 : heap w1 !! a = Some (set_isLocked true t)) by (rewrite Hh1; apply lookup_insert_eq).
  destruct (Unlock_step w1 a _ Ha1 Hs1 eq_refl) as (w2 & Hu2 & Hh2 & _ & _ & _ & Hd2).
  rewrite He1, Hc1, Hul in Hu2, Hh2.
  exists {| fl_texture := Some a |}, w1, {| fl_texture := None |}, w2.
  unfold FrameLease_ctor, FrameLease_dtor. simpl. rewrite (bind_Ok _ _ _ _ _ Hl).
  split; [reflexivity|]. unfold st_bind. rewrite (load_Ok _ _ _ _ Ha1). simpl.
  rewrite Hu2. split; [reflexivity|].
  rewrite <- Hh2 in Ha1.
  rewrite (Lock_locked_debug w2 a _ Ha1); [reflexivity | congruence | reflexivity].
Qed.

Lemma FrameLease_failed_unlock_next_lease_witness :
  let w := with_plat demo_world (with_env (plat demo_world) (env_fail_at 8)) in
  heap w !! 7%positive = Some demo_tex ∧ tex_sync w demo_tex ∧ st_isLocked demo_tex = false ∧
  ndebug w = false ∧
  env (plat w) (clock (plat w)) c_wglDXLockObjectsNV = true ∧
  env (plat w) (S (clock (plat w))) c_wglDXUnlockObjectsNV = false ∧
  ∃ l w1 l' w2,
    FrameLease_ctor (Some 7%positive) w = Ok (l, w1) ∧ FrameLease_dtor l w1 = Ok (l', w2) ∧
    FrameLease_ctor (Some 7%positive) w2 = Err (AssertionFailed "!IsLocked ()").
Proof.
  intros w.
  assert (Ha : heap w !! 7%positive = Some demo_tex) by (vm_compute; reflexivity).
  assert (Hs : tex_sync w demo_tex) by (apply tex_syncb_spec; vm_compute; reflexivity).
  assert (Hu : st_isLocked demo_tex = false) by (vm_compute; reflexivity).
  assert (Hd : ndebug w = false) by reflexivity.
  assert (H1 : env (plat w) (clock (plat w)) c_wglDXLockObjectsNV = true) by (vm_compute; reflexivity).
  assert (H2 : env (plat w) (S (clock (plat w))) c_wglDXUnlockObjectsNV = false) by (vm_compute; reflexivity).
  do 6 (split; [assumption|]).
  exact (FrameLease_failed_unlock_next_lease w 7 demo_tex Ha Hs Hu Hd H1 H2).
Defined.

End Lease.
