(* ===== verification/RenderPath.v ===== *)
(** * DXGIRenderPath: one playback session's use of the interop

    Lines 257-318 of [AX-MediaPlayerMSWDXGIRenderPath.cxx]: [Initialize]
    hands the context's DXGI manager to the media engine, [InitializeRenderTarget]
    (re)creates the shared texture when the size changes, [ProcessFrame]
    transfers the engine's frame into it and stamps it, [GetFrameLease]
    lends it to the renderer.  The class's members ([_owner], [_size],
    [_sharedTexture]) are declared in [AX-MediaPlayerMSWDXGIRenderPath.h],
    which is not among the sources; [DXGIRenderPath] records them. *)

From S2P Require Import Prelude Platform Process Interop SharedTexture FrameLease.
Open Scope vp_scope.

Module RP.
Import Interop Tex Lease.

(** The render path's state: its owner's [_hasNewFrame] flag (an atomic of
    [MediaPlayer::Impl]), the size of the last [InitializeRenderTarget],
    and the [unique_ptr<SharedTexture>] (an address, or null). *)
Record DXGIRenderPath := {
  rp_hasNewFrame : bool;
  rp_size : Z * Z;
  rp_sharedTexture : option positive
}.

(** [DXGIRenderPath::DXGIRenderPath (owner, source)] (lines 257-259). *)
Definition DXGIRenderPath_ctor : DXGIRenderPath :=
  {| rp_hasNewFrame := false; rp_size := (0%Z, 0%Z); rp_sharedTexture := None |}.

(** [DXGIRenderPath::Initialize (attributes)] (lines 261-274). *)
Definition Initialize (attributes : IMFAttributes) : ST world (bool * IMFAttributes) :=
  StaticInitialize;;
  let* interop := Get in
  if negb (ic_isValid interop) then ret (false, attributes)
  else
    let* '(ok, attributes') := lift (SetUnknown attributes (ic_dxgiManager interop)) in
    ret (ok, attributes').

(** [DXGIRenderPath::InitializeRenderTarget (size)] (lines 276-285).  The
    move assignment to the [unique_ptr] installs the new texture, then
    deletes the old one. *)
Definition InitializeRenderTarget (rp : DXGIRenderPath) (size : Z * Z)
    : ST world (bool * DXGIRenderPath) :=
  if bool_decide (rp_sharedTexture rp = None) || negb (bool_decide (size = rp_size rp)) then
    Get;;
    let* nt := CreateSharedTexture size in
    (match rp_sharedTexture rp with Some old => destroy old | None => ret tt end);;
    let rp' := {| rp_hasNewFrame := rp_hasNewFrame rp; rp_size := size; rp_sharedTexture := nt |} in
    ret (bool_decide (nt ≠ None), rp')
  else ret (bool_decide (rp_sharedTexture rp ≠ None), rp).

(** The rectangles and border of lines 293-295. *)
Definition full_src : MFVideoNormalizedRect :=
  {| nr_left := 0; nr_top := 0; nr_right := 1; nr_bottom := 1 |}.
Definition dst_rect (size : Z * Z) : RECT :=
  {| rc_left := 0; rc_top := 0; rc_right := size.1; rc_bottom := size.2 |}.
Definition black : MFARGB := {| rgbBlue := 0; rgbGreen := 0; rgbRed := 0; rgbAlpha := 0 |}.

(** [DXGIRenderPath::ProcessFrame (presentationTimestamp)] (lines 287-308):
    the timestamp is recorded whether or not the transfer succeeded. *)
Definition ProcessFrame (rp : DXGIRenderPath) (pts : Z) : ST world (bool * DXGIRenderPath) :=
  match rp_sharedTexture rp with
  | Some a =>
      let* t := load a "DXGIRenderPath::ProcessFrame" in
      let* ok := lift (TransferVideoFrame (st_dxTexture t) full_src (dst_rect (rp_size rp)) black) in
      let rp' := if ok then {| rp_hasNewFrame := true; rp_size := rp_size rp;
                               rp_sharedTexture := rp_sharedTexture rp |}
                 else rp in
      let* t := load a "SharedTexture::SetPresentationTimestamp" in
      store a (SetPresentationTimestamp pts t);;
      ret (ok, rp')
  | None => ret (false, rp)
  end.

(** [DXGIRenderPath::GetFrameLease ()] (lines 310-313). *)
Definition GetFrameLease (rp : DXGIRenderPath) : ST world DXGIRenderPathFrameLease :=
  FrameLease_ctor (rp_sharedTexture rp).

(** [DXGIRenderPath::~DXGIRenderPath ()] (lines 315-318). *)
Definition DXGIRenderPath_dtor (rp : DXGIRenderPath) : ST world unit :=
  match rp_sharedTexture rp with Some a => destroy a | None => ret tt end.

(** ** Theorems *)

Lemma rect_within_dst (size : Z * Z) :
  (0 <= size.1 < 2 ^ 32)%Z → (0 <= size.2 < 2 ^ 32)%Z →
  rect_within (dst_rect size) (SharedTexture_desc size) = true.
Proof.
  intros Hx Hy. unfold rect_within, dst_rect, SharedTexture_desc. simpl.
  rewrite !to_uint32_small by lia.
  repeat (apply andb_true_intro; split); apply Z.leb_le; lia.
Qed.

(** C19. [InitializeRenderTarget] with the size it already has and a
    texture in place does nothing: the texture is not reallocated and the
    process is unchanged. *)
Theorem InitializeRenderTarget_same_size (rp : DXGIRenderPath) (a : positive) (w : world) :
  rp_sharedTexture rp = Some a →
  InitializeRenderTarget rp (rp_size rp) w = Ok ((true, rp), w).
Proof.
  intros H. unfold InitializeRenderTarget. rewrite H.
  rewrite !bool_decide_eq_false_2 by congruence. rewrite bool_decide_eq_true_2 by done.
  reflexivity.
Qed.

Lemma InitializeRenderTarget_same_size_witness :
  rp_sharedTexture {| rp_hasNewFrame := false; rp_size := (1280%Z, 720%Z);
                      rp_sharedTexture := Some 7%positive |} = Some 7%positive ∧
  InitializeRenderTarget {| rp_hasNewFrame := false; rp_size := (1280%Z, 720%Z);
                            rp_sharedTexture := Some 7%positive |} (1280%Z, 720%Z) demo_world
  = Ok ((true, {| rp_hasNewFrame := false; rp_size := (1280%Z, 720%Z);
                  rp_sharedTexture := Some 7%positive |}), demo_world).
Proof. split; [reflexivity|]. exact (InitializeRenderTarget_same_size {| rp_hasNewFrame := false; rp_size := (1280%Z, 720%Z); rp_sharedTexture := Some 7%positive |} 7 demo_world eq_refl). Defined.

(** C20. Without a texture, [ProcessFrame] fails and changes nothing. *)
Theorem ProcessFrame_no_texture (rp : DXGIRenderPath) (pts : Z) (w : world) :
  rp_sharedTexture rp = None → ProcessFrame rp pts w = Ok ((false, rp), w).
Proof. intros H. unfold ProcessFrame. by rewrite H. Qed.

Lemma ProcessFrame_no_texture_witness :
  rp_sharedTexture DXGIRenderPath_ctor = None ∧
  ProcessFrame DXGIRenderPath_ctor 0 demo_world0 = Ok ((false, DXGIRenderPath_ctor), demo_world0).
Proof. split; [reflexivity|]. exact (ProcessFrame_no_texture DXGIRenderPath_ctor 0 demo_world0 eq_refl). Defined.

(** C21. [ProcessFrame] on a texture built for the render path's size: the
    transfer's destination fits the surface, so the call succeeds exactly
    when the media engine's transfer does; the owner's new-frame flag is
    raised only on success; and the presentation timestamp is recorded in
    both cases. *)
Theorem ProcessFrame_spec (rp : DXGIRenderPath) (pts : Z) (w : world) (a : positive)
    (t : SharedTexture) :
  rp_sharedTexture rp = Some a → heap w !! a = Some t → surface_ok w t (rp_size rp) →
  (0 <= (rp_size rp).1 < 2 ^ 32)%Z → (0 <= (rp_size rp).2 < 2 ^ 32)%Z →
  let ok := env (plat w) (clock (plat w)) c_TransferVideoFrame in
  ∃ w', ProcessFrame rp pts w =
          Ok ((ok, {| rp_hasNewFrame := rp_hasNewFrame rp || ok; rp_size := rp_size rp;
                      rp_sharedTexture := rp_sharedTexture rp |}), w') ∧
        heap w' = <[a := SetPresentationTimestamp pts t]> (heap w).
Proof.
  intros Hrp Ha (dx & gl & o & so & Hdx & Hgl & Ho & Hd & _) Hx Hy ok. subst ok.
  pose proof (rect_within_dst _ Hx Hy) as Hr.
  unfold ProcessFrame. rewrite Hrp. unfold_proc. unfold TransferVideoFrame, call.
  st_simpl. rewrite Ha. simpl. rewrite Hdx, Hd. simpl. rewrite Hr.
  destruct (env (plat w) (clock (plat w)) c_TransferVideoFrame);
    repeat (simpl; case_match; simplify_eq/=);
    eexists; (split; [destruct rp; simpl in *; subst; rewrite ?orb_true_r, ?orb_false_r;
                      reflexivity | reflexivity]).
Qed.

Definition demo_rp : DXGIRenderPath :=
  {| rp_hasNewFrame := false; rp_size := (1280%Z, 720%Z); rp_sharedTexture := Some 7%positive |}.

Lemma ProcessFrame_spec_witness :
  rp_sharedTexture demo_rp = Some 7%positive ∧ heap demo_world !! 7%positive = Some demo_tex ∧
  surface_ok demo_world demo_tex (rp_size demo_rp) ∧
  (0 <= (rp_size demo_rp).1 < 2 ^ 32)%Z ∧ (0 <= (rp_size demo_rp).2 < 2 ^ 32)%Z ∧
  ∃ w', ProcessFrame demo_rp 333333 demo_world =
          Ok ((true, {| rp_hasNewFrame := true; rp_size := rp_size demo_rp;
                        rp_sharedTexture := rp_sharedTexture demo_rp |}), w') ∧
        heap w' = <[7%positive := SetPresentationTimestamp 333333 demo_tex]> (heap demo_world).
Proof.
  assert (Ha : heap demo_world !! 7%positive = Some demo_tex) by (vm_compute; reflexivity).
  assert (Hs : surface_ok demo_world demo_tex (rp_size demo_rp))
    by (apply surface_okb_sound; vm_compute; reflexivity).
  assert (Hx : (0 <= (rp_size demo_rp).1 < 2 ^ 32)%Z) by (simpl; lia).
  assert (Hy : (0 <= (rp_size demo_rp).2 < 2 ^ 32)%Z) by (simpl; lia).
  do 5 (split; [assumption || reflexivity|]).
  exact (ProcessFrame_spec demo_rp 333333 demo_world 7 demo_tex eq_refl Ha Hs Hx Hy).
Defined.

End RP.
