(* ===== verification/MediaWriter.v ===== *)
(** * MediaWriter: encoding rendered frames with a Media Foundation sink writer

    [AX-MediaWriter.h] declares the class; its implementation is not among
    the sources.  The record [MediaWriter] translates the header's data
    members (lines 34-44); the operations follow the spec (section 4.5) and
    the sink-writer tutorial the header cites: a chain of Media Foundation
    calls each gated on the previous one's success, the COM objects it
    creates released on every path, samples time-stamped from a running
    [LONGLONG] accumulator advanced by a [long] frame duration
    [10 000 000 / fps] in 100 ns units.  The encoder is modelled by
    [encoder]: an oracle for each call, the number of live COM objects the
    writer created, and the samples written to the container. *)

From S2P Require Import Prelude.
Open Scope vp_scope.

Module MW.

(** Calls to Media Foundation that may fail. *)
Inductive mf_call :=
| mf_CreateSinkWriterFromURL | mf_CreateMediaType | mf_SetAttribute | mf_AddStream
| mf_SetInputMediaType | mf_BeginWriting | mf_CreateMemoryBuffer | mf_BufferLock
| mf_CopyImage | mf_BufferUnlock | mf_SetCurrentLength | mf_CreateSample | mf_AddBuffer
| mf_SetSampleTime | mf_SetSampleDuration | mf_WriteSample | mf_Finalize.

Record encoder := {
  mf_env : nat → mf_call → bool;
  mf_clock : nat;
  mf_live : nat;                     (** COM objects created and not yet released *)
  mf_samples : list (Z * Z);         (** (start, duration) of the samples written *)
  mf_finalized : bool                (** the container was closed by [Finalize] *)
}.

Definition with_mf (e : encoder) (clk live : nat) (smp : list (Z * Z)) (fin : bool) : encoder :=
  {| mf_env := mf_env e; mf_clock := clk; mf_live := live; mf_samples := smp; mf_finalized := fin |}.

(** An HRESULT-returning call: [SUCCEEDED (hr)] is the oracle's answer. *)
Definition mfcall (c : mf_call) : ST encoder bool :=
  λ e, Ok (mf_env e (mf_clock e) c, with_mf e (S (mf_clock e)) (mf_live e) (mf_samples e) (mf_finalized e)).

(** A COM object is created / released ([mfSafeRelease], lines 46-53). *)
Definition acquire : ST encoder unit :=
  modify (λ e, with_mf e (mf_clock e) (S (mf_live e)) (mf_samples e) (mf_finalized e)).
Definition release (n : nat) : ST encoder unit :=
  modify (λ e, with_mf e (mf_clock e) (mf_live e - n) (mf_samples e) (mf_finalized e)).

(** [hr = f (); if (SUCCEEDED (hr)) hr = g (); ...]: run the steps until one
    fails; a step marked [true] creates a COM object.  The result is the
    final [SUCCEEDED (hr)] and the number of objects created. *)
Fixpoint run_chain (steps : list (mf_call * bool)) (created : nat) : ST encoder (bool * nat) :=
  match steps with
  | [] => ret (true, created)
  | (c, mk) :: rest =>
      let* ok := mfcall c in
      if ok then
        (if mk then acquire else ret tt);;
        run_chain rest (if mk then S created else created)
      else ret (false, created)
  end.

(** The chain followed by the [SafeRelease] of every object it created. *)
Definition gated (steps : list (mf_call * bool)) : ST encoder bool :=
  let* '(ok, n) := run_chain steps 0 in
  release n;;
  ret ok.

(** ** The writer *)

(** The data members of [class MediaWriter] (header lines 34-44).  The
    sink writer is a non-null flag; the FBO used for read-back is not
    state the model needs. *)
Record MediaWriter := {
  _pSinkWriter : bool;
  _size : Z * Z;
  _stream : Z;                  (** [DWORD _stream = -1] *)
  _rtStart : Z;                 (** [LONGLONG _rtStart = 0] *)
  _videoFrameDuration : Z;      (** [long] *)
  _videoFrameBuffer : list Z;   (** [std::vector<DWORD>] *)
  _isReady : bool;
  _videoBitrate : Z;
  _framerate : Z;
  _filePath : string
}.

Definition set_ready (mw : MediaWriter) (sink : bool) (stream : Z) (ready : bool) : MediaWriter :=
  {| _pSinkWriter := sink; _size := _size mw; _stream := stream; _rtStart := _rtStart mw;
     _videoFrameDuration := _videoFrameDuration mw; _videoFrameBuffer := _videoFrameBuffer mw;
     _isReady := ready; _videoBitrate := _videoBitrate mw; _framerate := _framerate mw;
     _filePath := _filePath mw |}.

Definition set_frame (mw : MediaWriter) (rt : Z) (buf : list Z) : MediaWriter :=
  {| _pSinkWriter := _pSinkWriter mw; _size := _size mw; _stream := _stream mw; _rtStart := rt;
     _videoFrameDuration := _videoFrameDuration mw; _videoFrameBuffer := buf;
     _isReady := _isReady mw; _videoBitrate := _videoBitrate mw; _framerate := _framerate mw;
     _filePath := _filePath mw |}.

(** The 100 ns time base of Media Foundation. *)
Definition time_base : Z := 10000000.




Definition write_steps : list (mf_call * bool) :=
  [(mf_CreateMemoryBuffer, true); (mf_BufferLock, false); (mf_CopyImage, false);
   (mf_BufferUnlock, false); (mf_SetCurrentLength, false); (mf_CreateSample, true);
   (mf_AddBuffer, false); (mf_SetSampleTime, false); (mf_SetSampleDuration, false);
   (mf_WriteSample, false)].

(** [WriteFrame (videoBuffer)]: build a sample stamped [_rtStart] lasting
    one frame and hand it to the sink writer. *)
Definition WriteFrame (mw : MediaWriter) : ST encoder bool :=
  let* ok := gated write_steps in
  if ok then
    modify (λ e, with_mf e (mf_clock e) (mf_live e)
                   (mf_samples e ++ [(_rtStart mw, _videoFrameDuration mw)]) (mf_finalized e));;
    ret true
  else ret false.

(** The pixels read back from the GL texture, row by row; [flip] reverses
    the rows (GL's rows run bottom-up). *)
Definition pack_frame (rows : list (list Z)) (flip : bool) : list Z :=
  concat (if flip then rev rows else rows).

(** [Write (texture, flip)]: requires the ready state; on success the
    accumulator advances by one frame duration. *)
Definition Write (mw : MediaWriter) (rows : list (list Z)) (flip : bool)
    : ST encoder (bool * MediaWriter) :=
  if negb (_isReady mw) then ret (false, mw)
  else
    let mw1 := set_frame mw (_rtStart mw) (pack_frame rows flip) in
    let* ok := WriteFrame mw1 in
    if ok then ret (true, set_frame mw1 (_rtStart mw1 + _videoFrameDuration mw1)%Z (_videoFrameBuffer mw1))
    else ret (false, mw1).


(** The caller's capture loop: [Write] each frame in turn, flipped. *)
Fixpoint write_frames (mw : MediaWriter) (frames : list (list (list Z)))
    : ST encoder (list bool * MediaWriter) :=
  match frames with
  | [] => ret ([], mw)
  | f :: fs =>
      let* '(ok, mw') := Write mw f true in
      let* '(oks, mw'') := write_frames mw' fs in
      ret (ok :: oks, mw'')
  end.

(** ** Lemmas on gated chains *)

Definition count_mk (steps : list (mf_call * bool)) : nat := length (List.filter snd steps).


(** From some clock on, every call succeeds. *)
Definition all_ok_from (e : encoder) : Prop := ∀ k c, mf_clock e <= k → mf_env e k c = true.

Lemma run_chain_all_ok steps n e :
  all_ok_from e →
  ∃ e', run_chain steps n e = Ok ((true, n + count_mk steps), e') ∧
    mf_clock e' = mf_clock e + length steps ∧ mf_live e' = mf_live e + count_mk steps ∧
    mf_samples e' = mf_samples e ∧ mf_finalized e' = mf_finalized e ∧ mf_env e' = mf_env e.
Proof.
  revert n e. induction steps as [|[c mk] rest IH]; intros n e Hok.
  - eexists. split; [unfold count_mk; simpl; rewrite Nat.add_0_r; reflexivity|]. simpl. split_and!; lia || done.
  - simpl. unfold st_bind, mfcall. simpl. rewrite Hok by lia.
    set (e1 := with_mf e (S (mf_clock e)) (mf_live e + (if mk then 1 else 0)) (mf_samples e) (mf_finalized e)).
    assert (Hok1 : all_ok_from e1) by (intros k c' Hk; apply Hok; simpl in Hk; lia).
    destruct (IH (if mk then S n else n) e1 Hok1) as (e' & Hr & Hc & Hl & Hs & Hf & He).
    exists e'. destruct mk; st_simpl.
    + replace (with_mf (with_mf e (S (mf_clock e)) (mf_live e) (mf_samples e) (mf_finalized e))
                 (S (mf_clock e)) (S (mf_live e)) (mf_samples e) (mf_finalized e)) with e1
        by (unfold e1; simpl; do 2 f_equal; lia).
      rewrite Hr. unfold count_mk in *. simpl in *. split; [do 3 f_equal; lia|].
      split_and!; try lia; done.
    + replace (with_mf e (S (mf_clock e)) (mf_live e) (mf_samples e) (mf_finalized e)) with e1
        by (unfold e1; simpl; do 2 f_equal; lia).
      rewrite Hr. unfold count_mk in *. simpl in *. split; [reflexivity|].
      split_and!; try lia; done.
Qed.


(** ** Theorems *)

Definition mw_demo0 : MediaWriter :=
  {| _pSinkWriter := false; _size := (1280%Z, 720%Z); _stream := 4294967295; _rtStart := 0;
     _videoFrameDuration := time_base / 30; _videoFrameBuffer := [];
     _isReady := false; _videoBitrate := 6000000; _framerate := 30; _filePath := "out.mp4" |}.
Definition enc_demo (env : nat → mf_call → bool) : encoder :=
  {| mf_env := env; mf_clock := 0; mf_live := 0; mf_samples := []; mf_finalized := false |}.




(** C24. [N] consecutive writes on a ready writer whose encoder accepts
    every call all succeed; the samples appended to the container start at
    [rt0], [rt0 + d], ..., [rt0 + (N-1) d] and each lasts one frame
    duration [d]; the accumulator ends at [rt0 + N d]. *)
Theorem write_frames_timestamps (mw : MediaWriter) (frames : list (list (list Z))) (e : encoder) :
  _isReady mw = true → all_ok_from e →
  let d := _videoFrameDuration mw in
  ∃ mw' e',
    write_frames mw frames e = Ok ((repeat true (length frames), mw'), e') ∧
    mf_samples e' = mf_samples e ++
      map (λ k, (_rtStart mw + Z.of_nat k * d, d)%Z) (seq 0 (length frames)) ∧
    _rtStart mw' = (_rtStart mw + Z.of_nat (length frames) * d)%Z ∧ _isReady mw' = true.
Proof.
  intros Hr Hok d. subst d. revert mw e Hr Hok.
  induction frames as [|f fs IH]; intros mw e Hr Hok.
  - exists mw, e. simpl. rewrite app_nil_r. split_and!; [reflexivity|reflexivity|lia|done].
  - destruct (run_chain_all_ok write_steps 0 e Hok) as (e1 & Hc & Hcl & Hl & Hs & Hf & He).
    set (mw1 := set_frame mw (_rtStart mw) (pack_frame f true)).
    set (e2 := with_mf e1 (mf_clock e1) (mf_live e1 - count_mk write_steps)
                 (mf_samples e1 ++ [(_rtStart mw, _videoFrameDuration mw)]) (mf_finalized e1)).
    assert (HW : Write mw f true e =
                 Ok ((true, set_frame mw1 (_rtStart mw + _videoFrameDuration mw)%Z (pack_frame f true)), e2)).
    { unfold Write. rewrite Hr. cbn [negb]. unfold WriteFrame, gated, st_bind. rewrite Hc.
      st_simpl. reflexivity. }
    assert (Hok2 : all_ok_from e2).
    { intros k c Hk. unfold e2 in Hk. simpl in Hk. unfold e2. simpl. rewrite He. apply Hok. lia. }
    destruct (IH (set_frame mw1 (_rtStart mw + _videoFrameDuration mw)%Z (pack_frame f true))
                 e2 Hr Hok2) as (mw' & e' & Hrun & Hs' & Hrt & Hr').
    exists mw', e'. cbn [write_frames length repeat]. unfold st_bind. rewrite HW.
    cbv beta iota. rewrite Hrun.
    split; [reflexivity|]. simpl in Hs', Hrt. rewrite Hs', Hrt. unfold e2. simpl. rewrite Hs.
    split_and!; [|lia|done].
    rewrite <- app_assoc. f_equal. simpl. f_equal; [f_equal; lia|].
    rewrite <- seq_shift, map_map. apply map_ext. intros k. f_equal. lia.
Qed.

Lemma write_frames_timestamps_witness :
  let mw := set_ready mw_demo0 true 0 true in
  _isReady mw = true ∧ all_ok_from (enc_demo (λ _ _, true)) ∧
  ∃ mw' e',
    write_frames mw [[[1%Z]]; [[2%Z]]; [[3%Z]]] (enc_demo (λ _ _, true)) = Ok ((repeat true 3, mw'), e') ∧
    mf_samples e' = mf_samples (enc_demo (λ _ _, true)) ++
      map (λ k, (_rtStart mw + Z.of_nat k * _videoFrameDuration mw, _videoFrameDuration mw)%Z) (seq 0 3) ∧
    _rtStart mw' = (_rtStart mw + Z.of_nat 3 * _videoFrameDuration mw)%Z ∧ _isReady mw' = true.
Proof.
  intros mw. assert (Hok : all_ok_from (enc_demo (λ _ _, true))) by (intros k c _; reflexivity).
  split; [reflexivity|]. split; [exact Hok|].
  exact (write_frames_timestamps mw [[[1%Z]]; [[2%Z]]; [[3%Z]]] _ eq_refl Hok).
Defined.






End MW.
